(** * A scalar neural network written from scratch: forward and backward passes

    Shallow embedding of the two notebooks of the repository:

    - the annotated notebook (classes [OurDNN], [OurLinear], [OurTanh],
      [OurMSELoss] and [get_params]), embedded at top level;
    - [NNPrimer.ipynb], an earlier notebook with the same classes, embedded
      in [Module NNPrimer].

    Python floats are modelled as the real numbers [R] of the Standard
    Library, the data model of the specification ("real scalar"), and
    [np.tanh] as the hyperbolic tangent [tanh] of [Rtrigo_def]; overflow,
    NaN and infinities are outside this model.  Where a statement depends
    on rounding, the code is taken in double precision instead: [Binary64]
    evaluates [OurLinear] on the binary64 numbers of the kernel, and
    [Rounded] lets [OurTanh] return a binary64 number nearest to each exact
    result.

    A Python object is a record of its attributes.  An attribute that is
    only created by a method ([self.x], [self.y], [self.z]) is an [option]:
    [None] while the attribute does not exist.  Reading a missing attribute
    raises [AttributeError]; a method that can raise returns the object as
    the call left it together with a [result].

    The helpers [get_params], [get_py_params], [get_our_params] and
    [copy_params], the function [some_function_we_want_to_learn] and the
    cell that trains [OurDNN] are embedded as well.  Of the PyTorch network
    only what the helpers read is modelled: its list of layers with the
    weight and bias of each [nn.Linear].  The training cell takes the
    samples as the list of pairs the data loader yields; its [print] lines
    are kept as data, before formatting. *)

From Stdlib Require Import Reals Lra Lia List String ZArith PrimFloat.
Import ListNotations.

Open Scope R_scope.

(** A decimal literal of the source denotes the binary64 number nearest to it. *)
#[local] Set Warnings "-inexact-float".

(** ** Exceptions and method results *)

(** [AttributeError cls attr]: "'cls' object has no attribute 'attr'". *)
Inductive exn : Set :=
| AttributeError (cls attr : string).

Inductive result (A : Type) : Type :=
| Return (a : A)
| Raise (e : exn).

Arguments Return {A} a.
Arguments Raise {A} e.

(** Attribute lookup [self.attr] on an attribute that may not exist yet. *)
Definition getattr {A : Type} (cls attr : string) (slot : option A) : result A :=
  match slot with
  | Some v => Return v
  | None => Raise (AttributeError cls attr)
  end.

(** ** The layer protocol

    The network calls [layer.forward(x)] and [layer.backward(grad_out, lr)]
    on whatever object the list holds (duck typing). *)
Class Layer (L : Type) : Type := {
  layer_forward : L -> R -> L * R;
  layer_backward : L -> R -> R -> L * result R
}.

(** ** OurLinear *)
Module OurLinear.

Record t : Type := mk { weight : R; bias : R; x : option R }.

(** [__init__]: the two draws of [random.uniform(-1, 1)] are the
    arguments; no attribute [x] yet. *)
Definition init (draw_w draw_b : R) : t :=
  {| weight := draw_w; bias := draw_b; x := None |}.

Definition forward (self : t) (x0 : R) : t * R :=
  let self := {| weight := weight self; bias := bias self; x := Some x0 |} in
  let out := x0 * weight self + bias self in
  (self, out).

Definition backward (self : t) (grad_out lr : R) : t * result R :=
  match getattr "OurLinear" "x" (x self) with
  | Raise e => (self, Raise e)
  | Return x0 =>
      let grad_w := grad_out * x0 in
      let grad_b := grad_out in
      let grad_in := grad_out * weight self in
      let self :=
        {| weight := weight self - lr * grad_w; bias := bias self; x := x self |} in
      let self :=
        {| weight := weight self; bias := bias self - lr * grad_b; x := x self |} in
      (self, Return grad_in)
  end.

End OurLinear.

(** ** OurTanh *)
Module OurTanh.

Record t : Type := mk { y : option R }.

(** The class has no [__init__]: a new object has no attribute. *)
Definition init : t := {| y := None |}.

Definition forward (self : t) (x : R) : t * R :=
  let y0 := tanh x in
  ({| y := Some y0 |}, y0).

(** [lr] is a parameter of the method and does not occur in its body. *)
Definition backward (self : t) (grad_out lr : R) : t * result R :=
  match getattr "OurTanh" "y" (y self) with
  | Raise e => (self, Raise e)
  | Return y0 =>
      let grad_in := grad_out * (1 - y0 ^ 2) in
      (self, Return grad_in)
  end.

End OurTanh.

(** ** OurMSELoss *)
Module OurMSELoss.

Record t : Type := mk { z : option R }.

Definition init : t := {| z := None |}.

Definition forward (self : t) (x y : R) : t * R :=
  let z0 := y - x in
  let loss := z0 ^ 2 in
  ({| z := Some z0 |}, loss).

Definition backward (self : t) : t * result R :=
  match getattr "OurMSELoss" "z" (z self) with
  | Raise e => (self, Raise e)
  | Return z0 =>
      let grad_in := (-2) * z0 in
      (self, Return grad_in)
  end.

End OurMSELoss.

(** ** The two [for] loops of a network, over any kind of layer *)
Section Loops.

Context {L : Type} `{Layer L}.

(** [for layer in ls: x = layer.forward(x)], then the final [x]. *)
Fixpoint forward_loop (ls : list L) (x : R) : list L * R :=
  match ls with
  | [] => ([], x)
  | layer :: rest =>
      let (layer', x') := layer_forward layer x in
      let (rest', out) := forward_loop rest x' in
      (layer' :: rest', out)
  end.

(** [for layer in ls: grad_out = layer.backward(grad_out, lr)], then the
    final [grad_out].  The objects are visited in the order of [ls]; an
    exception leaves the loop at once, the objects after it untouched. *)
Fixpoint backward_loop (ls : list L) (grad_out lr : R) : list L * result R :=
  match ls with
  | [] => ([], Return grad_out)
  | layer :: rest =>
      match layer_backward layer grad_out lr with
      | (layer', Raise e) => (layer' :: rest, Raise e)
      | (layer', Return grad_in) =>
          let (rest', out) := backward_loop rest grad_in lr in
          (layer' :: rest', out)
      end
  end.

(** The backward pass in the words of the specification: the layers
    after a layer run backward before it, the gradient a layer returns is
    the [grad_out] of the layer before it, and the gradient returned by
    the first layer is the result. *)
Fixpoint backward_chain (ls : list L) (grad_out lr : R) : list L * result R :=
  match ls with
  | [] => ([], Return grad_out)
  | layer :: rest =>
      match backward_chain rest grad_out lr with
      | (rest', Raise e) => (layer :: rest', Raise e)
      | (rest', Return g) =>
          let (layer', out) := layer_backward layer g lr in
          (layer' :: rest', out)
      end
  end.

End Loops.

(** ** The objects a network holds, and OurDNN *)

Inductive layer : Type :=
| Linear (l : OurLinear.t)
| Tanh (a : OurTanh.t).

#[global] Instance layer_Layer : Layer layer := {
  layer_forward obj x :=
    match obj with
    | Linear l => let (l', out) := OurLinear.forward l x in (Linear l', out)
    | Tanh a => let (a', out) := OurTanh.forward a x in (Tanh a', out)
    end;
  layer_backward obj grad_out lr :=
    match obj with
    | Linear l =>
        let (l', r) := OurLinear.backward l grad_out lr in (Linear l', r)
    | Tanh a =>
        let (a', r) := OurTanh.backward a grad_out lr in (Tanh a', r)
    end
}.

Module OurDNN.

Record t : Type := mk { layers : list layer }.

(** [for i in range(n)]: two [append]s per round.  [draw k] is the value
    of the [k]-th call of [random.uniform(-1, 1)]. *)
Fixpoint init_loop (rounds : nat) (draw : nat -> R) (k : nat)
         (acc : list layer) : list layer :=
  match rounds with
  | O => acc
  | S rounds' =>
      let acc := acc ++ [Linear (OurLinear.init (draw k) (draw (S k)))] in
      let acc := acc ++ [Tanh OurTanh.init] in
      init_loop rounds' draw (S (S k)) acc
  end.

Definition init (n : Z) (draw : nat -> R) : t :=
  {| layers := init_loop (Z.to_nat n) draw 0%nat [] |}.

Definition forward (self : t) (x : R) : t * R :=
  let (ls, out) := forward_loop (layers self) x in
  ({| layers := ls |}, out).

(** [for layer in reversed(self.layers)]: the loop runs over the same
    objects from the last to the first; the list keeps its order. *)
Definition backward (self : t) (grad_out lr : R) : t * result R :=
  let (visited, out) := backward_loop (rev (layers self)) grad_out lr in
  ({| layers := rev visited |}, out).

End OurDNN.

(** The dictionary [{'ws': [...], 'bs': [...]}] of [get_params]. *)
Record params : Type := mk_params { ws : list R; bs : list R }.

(** Only the [isinstance(layer, OurLinear)] branch concerns an [OurDNN]. *)
Definition get_params (dnn : OurDNN.t) : params :=
  fold_left
    (fun p obj =>
       match obj with
       | Linear l =>
           {| ws := ws p ++ [OurLinear.weight l]; bs := bs p ++ [OurLinear.bias l] |}
       | Tanh _ => p
       end)
    (OurDNN.layers dnn) {| ws := []; bs := [] |}.

(** ** The PyTorch network, as far as the parameter helpers read it

    [nn.Linear(1, 1)] holds one weight and one bias, read by [.item()];
    [nn.Tanh()] holds nothing.  [draw k] is the [k]-th number PyTorch draws
    to initialise a parameter, the weight of a layer before its bias. *)
Module PyDNN.

Inductive layer : Type :=
| Linear (weight bias : R)
| Tanh.

Record t : Type := mk { layers : list layer }.

Fixpoint init_loop (rounds : nat) (draw : nat -> R) (k : nat)
         (acc : list layer) : list layer :=
  match rounds with
  | O => acc
  | S rounds' =>
      let acc := acc ++ [Linear (draw k) (draw (S k))] in
      let acc := acc ++ [Tanh] in
      init_loop rounds' draw (S (S k)) acc
  end.

Definition init (n : Z) (draw : nat -> R) : t :=
  {| layers := init_loop (Z.to_nat n) draw 0%nat [] |}.

End PyDNN.

(** [get_params] on a [PyDNN]: the [isinstance(layer, nn.Linear)] branch. *)
Definition get_params_torch (dnn : PyDNN.t) : params :=
  fold_left
    (fun p obj =>
       match obj with
       | PyDNN.Linear weight bias =>
           {| ws := ws p ++ [weight]; bs := bs p ++ [bias] |}
       | PyDNN.Tanh => p
       end)
    (PyDNN.layers dnn) {| ws := []; bs := [] |}.

(** How a loop over list positions ends: it runs to its end, or a
    subscript [layers[i]] is out of range and raises [IndexError]. *)
Inductive completion : Set :=
| Completed
| IndexError.

(** The list after the object at position [i] has been changed in place. *)
Fixpoint update_nth {A : Type} (i : nat) (v : A) (l : list A) : list A :=
  match l, i with
  | [], _ => []
  | _ :: rest, O => v :: rest
  | first :: rest, S i' => first :: update_nth i' v rest
  end.

(** [obj.weight = v] and [obj.bias = v].  On an [OurTanh] object the
    assignment creates an attribute that no method and no helper reads; the
    record of the object, which holds what they read, stays as it is. *)
Definition setattr_weight (obj : layer) (v : R) : layer :=
  match obj with
  | Linear l =>
      Linear {| OurLinear.weight := v; OurLinear.bias := OurLinear.bias l;
                OurLinear.x := OurLinear.x l |}
  | Tanh a => Tanh a
  end.

Definition setattr_bias (obj : layer) (v : R) : layer :=
  match obj with
  | Linear l =>
      Linear {| OurLinear.weight := OurLinear.weight l; OurLinear.bias := v;
                OurLinear.x := OurLinear.x l |}
  | Tanh a => Tanh a
  end.

(** [for i in range(n)] of [copy_params], from position [i], [count] rounds
    to go. *)
Fixpoint copy_params_loop (i count : nat) (py_layers : list PyDNN.layer)
         (ours : list layer) : list layer * completion :=
  match count with
  | O => (ours, Completed)
  | S count' =>
      match nth_error py_layers i with
      | None => (ours, IndexError)
      | Some PyDNN.Tanh => copy_params_loop (S i) count' py_layers ours
      | Some (PyDNN.Linear weight bias) =>
          match nth_error ours i with
          | None => (ours, IndexError)
          | Some obj =>
              let ours := update_nth i (setattr_weight obj weight) ours in
              match nth_error ours i with
              | None => (ours, IndexError)
              | Some obj =>
                  let ours := update_nth i (setattr_bias obj bias) ours in
                  copy_params_loop (S i) count' py_layers ours
              end
          end
      end
  end.

Definition copy_params (py_dnn : PyDNN.t) (our_dnn : OurDNN.t)
  : OurDNN.t * completion :=
  let n := List.length (PyDNN.layers py_dnn) in
  let (ls, how) :=
    copy_params_loop 0 n (PyDNN.layers py_dnn) (OurDNN.layers our_dnn) in
  ({| OurDNN.layers := ls |}, how).

Definition some_function_we_want_to_learn (x : R) : R :=
  tanh (0.6 * x - 0.9).

(** ** The training cell

    The four calls of one round of the loop: the network and the loss as
    the round leaves them, and the loss of the round. *)
Definition train_step (our_dnn : OurDNN.t) (our_loss : OurMSELoss.t)
           (lr x y : R) : OurDNN.t * OurMSELoss.t * result R :=
  let (our_dnn, out) := OurDNN.forward our_dnn x in
  let (our_loss, loss) := OurMSELoss.forward our_loss out y in
  match OurMSELoss.backward our_loss with
  | (our_loss, Raise e) => (our_dnn, our_loss, Raise e)
  | (our_loss, Return grad) =>
      match OurDNN.backward our_dnn grad lr with
      | (our_dnn, Raise e) => (our_dnn, our_loss, Raise e)
      | (our_dnn, Return _) => (our_dnn, our_loss, Return loss)
      end
  end.

(** What a [print] of the cell shows, before [format_params] rounds it. *)
Inductive line : Type :=
| before_training (shown : params)
| after_batch (batch_idx : nat) (loss : R) (shown : params).

Record progress : Type := mk_progress {
  dnn_now : OurDNN.t;
  loss_now : OurMSELoss.t;
  batch_idx : nat;
  our_params : params;
  printed : list line
}.

(** [for _, (x, y) in enumerate(dataloader)]: the samples in the order the
    loader yields them.  [epoch_size] is a positive constant of the notebook
    (50).  An exception ends the cell. *)
Fixpoint train_loop (dataloader : list (R * R)) (lr : R) (epoch_size : positive)
         (st : progress) : progress * result unit :=
  match dataloader with
  | [] => (st, Return tt)
  | (x, y) :: rest =>
      match train_step (dnn_now st) (loss_now st) lr x y with
      | (our_dnn, our_loss, Raise e) =>
          ({| dnn_now := our_dnn; loss_now := our_loss;
              batch_idx := batch_idx st; our_params := our_params st;
              printed := printed st |}, Raise e)
      | (our_dnn, our_loss, Return loss) =>
          let batch_idx := S (batch_idx st) in
          let our_params := get_params our_dnn in
          let printed :=
            if Nat.eqb (Nat.modulo batch_idx (Pos.to_nat epoch_size)) 0
            then printed st ++ [after_batch batch_idx loss our_params]
            else printed st in
          train_loop rest lr epoch_size
            {| dnn_now := our_dnn; loss_now := our_loss;
               batch_idx := batch_idx; our_params := our_params;
               printed := printed |}
      end
  end.

Definition train (our_dnn : OurDNN.t) (dataloader : list (R * R)) (lr : R)
           (epoch_size : positive) : progress * result unit :=
  let our_params := get_params our_dnn in
  let our_loss := OurMSELoss.init in
  let batch_idx := 0%nat in
  train_loop dataloader lr epoch_size
    {| dnn_now := our_dnn; loss_now := our_loss; batch_idx := batch_idx;
       our_params := our_params; printed := [before_training our_params] |}.

(** ** NNPrimer.ipynb *)
Module NNPrimer.

Module OurLinear.

Record t : Type := mk { w : R; b : R; x : option R }.

Definition init (draw_w draw_b : R) : t :=
  {| w := draw_w; b := draw_b; x := None |}.

Definition forward (self : t) (x0 : R) : t * R :=
  let self := {| w := w self; b := b self; x := Some x0 |} in
  (self, x0 * w self + b self).

Definition backward (self : t) (grad_out lr : R) : t * result R :=
  match getattr "OurLinear" "x" (x self) with
  | Raise e => (self, Raise e)
  | Return x0 =>
      let grad_w := grad_out * x0 in
      let grad_b := grad_out in
      let grad_in := grad_out * w self in
      let self := {| w := w self - lr * grad_w; b := b self; x := x self |} in
      let self := {| w := w self; b := b self - lr * grad_b; x := x self |} in
      (self, Return grad_in)
  end.

End OurLinear.

Module OurTanh.

Record t : Type := mk { y : option R }.

Definition init : t := {| y := None |}.

Definition forward (self : t) (x : R) : t * R :=
  let y0 := tanh x in
  ({| y := Some y0 |}, y0).

Definition backward (self : t) (grad_out lr : R) : t * result R :=
  match getattr "OurTanh" "y" (y self) with
  | Raise e => (self, Raise e)
  | Return y0 =>
      let grad_in := grad_out * (1 - y0 ^ 2) in
      (self, Return grad_in)
  end.

End OurTanh.

Module OurMSELoss.

Record t : Type := mk { x : option R; y : option R }.

Definition init : t := {| x := None; y := None |}.

Definition forward (self : t) (x0 y0 : R) : t * R :=
  ({| x := Some x0; y := Some y0 |}, (y0 - x0) ^ 2).

(** [-2 * (self.y - self.x)] reads [self.y] before [self.x]. *)
Definition backward (self : t) : t * result R :=
  match getattr "OurMSELoss" "y" (y self) with
  | Raise e => (self, Raise e)
  | Return y0 =>
      match getattr "OurMSELoss" "x" (x self) with
      | Raise e => (self, Raise e)
      | Return x0 =>
          let grad_in := (-2) * (y0 - x0) in
          (self, Return grad_in)
      end
  end.

End OurMSELoss.

Inductive layer : Type :=
| Linear (l : OurLinear.t)
| Tanh (a : OurTanh.t).

#[global] Instance layer_Layer : Layer layer := {
  layer_forward obj x :=
    match obj with
    | Linear l => let (l', out) := OurLinear.forward l x in (Linear l', out)
    | Tanh a => let (a', out) := OurTanh.forward a x in (Tanh a', out)
    end;
  layer_backward obj grad_out lr :=
    match obj with
    | Linear l =>
        let (l', r) := OurLinear.backward l grad_out lr in (Linear l', r)
    | Tanh a =>
        let (a', r) := OurTanh.backward a grad_out lr in (Tanh a', r)
    end
}.

Module OurDNN.

Record t : Type := mk { layers : list layer }.

Fixpoint init_loop (rounds : nat) (draw : nat -> R) (k : nat)
         (acc : list layer) : list layer :=
  match rounds with
  | O => acc
  | S rounds' =>
      let acc := acc ++ [Linear (OurLinear.init (draw k) (draw (S k)))] in
      let acc := acc ++ [Tanh OurTanh.init] in
      init_loop rounds' draw (S (S k)) acc
  end.

Definition init (num_layers : Z) (draw : nat -> R) : t :=
  {| layers := init_loop (Z.to_nat num_layers) draw 0%nat [] |}.

Definition forward (self : t) (x : R) : t * R :=
  let (ls, out) := forward_loop (layers self) x in
  ({| layers := ls |}, out).

(** [for layer in self.layers]: this notebook's loop runs from the
    first object to the last. *)
Definition backward (self : t) (grad_out lr : R) : t * result R :=
  let (visited, out) := backward_loop (layers self) grad_out lr in
  ({| layers := visited |}, out).

End OurDNN.

Definition get_our_params (our_dnn : OurDNN.t) : params :=
  fold_left
    (fun p obj =>
       match obj with
       | Linear l =>
           {| ws := ws p ++ [OurLinear.w l]; bs := bs p ++ [OurLinear.b l] |}
       | Tanh _ => p
       end)
    (OurDNN.layers our_dnn) {| ws := []; bs := [] |}.

(** [named_parameters()] of the [nn.Sequential] yields, for each
    [nn.Linear] in order, its weight and then its bias, under names that end
    in [weight] and [bias]; [nn.Tanh] has none. *)
Definition get_py_params (py_dnn : PyDNN.t) : params :=
  fold_left
    (fun p obj =>
       match obj with
       | PyDNN.Linear weight bias =>
           {| ws := ws p ++ [weight]; bs := bs p ++ [bias] |}
       | PyDNN.Tanh => p
       end)
    (PyDNN.layers py_dnn) {| ws := []; bs := [] |}.

(** [obj.w = v] and [obj.b = v]; on an [OurTanh] object the new attribute
    is read by nothing and the record stays as it is. *)
Definition setattr_w (obj : layer) (v : R) : layer :=
  match obj with
  | Linear l =>
      Linear {| OurLinear.w := v; OurLinear.b := OurLinear.b l;
                OurLinear.x := OurLinear.x l |}
  | Tanh a => Tanh a
  end.

Definition setattr_b (obj : layer) (v : R) : layer :=
  match obj with
  | Linear l =>
      Linear {| OurLinear.w := OurLinear.w l; OurLinear.b := v;
                OurLinear.x := OurLinear.x l |}
  | Tanh a => Tanh a
  end.

(** [for i in range(len(py_params['ws']))], from position [i], [count]
    rounds to go: the subscript of [our_dnn.layers] is the number of the
    parameter. *)
Fixpoint copy_params_loop (i count : nat) (py_params : params)
         (ours : list layer) : list layer * completion :=
  match count with
  | O => (ours, Completed)
  | S count' =>
      match nth_error (ws py_params) i with
      | None => (ours, IndexError)
      | Some w =>
          match nth_error ours i with
          | None => (ours, IndexError)
          | Some obj =>
              let ours := update_nth i (setattr_w obj w) ours in
              match nth_error (bs py_params) i with
              | None => (ours, IndexError)
              | Some b =>
                  match nth_error ours i with
                  | None => (ours, IndexError)
                  | Some obj =>
                      let ours := update_nth i (setattr_b obj b) ours in
                      copy_params_loop (S i) count' py_params ours
                  end
              end
          end
      end
  end.

Definition copy_params (py_dnn : PyDNN.t) (our_dnn : OurDNN.t)
  : OurDNN.t * completion :=
  let py_params := get_py_params py_dnn in
  let (ls, how) :=
    copy_params_loop 0 (List.length (ws py_params)) py_params
      (OurDNN.layers our_dnn) in
  ({| OurDNN.layers := ls |}, how).

Definition some_function_we_want_to_learn (x : R) : R :=
  tanh (-0.6 * x - 0.9).

(** One round of the training cell of this notebook. *)
Definition train_step (our_dnn : OurDNN.t) (our_loss : OurMSELoss.t)
           (lr x y : R) : OurDNN.t * OurMSELoss.t * result R :=
  let (our_dnn, out) := OurDNN.forward our_dnn x in
  let (our_loss, loss) := OurMSELoss.forward our_loss out y in
  match OurMSELoss.backward our_loss with
  | (our_loss, Raise e) => (our_dnn, our_loss, Raise e)
  | (our_loss, Return grad) =>
      match OurDNN.backward our_dnn grad lr with
      | (our_dnn, Raise e) => (our_dnn, our_loss, Raise e)
      | (our_dnn, Return _) => (our_dnn, our_loss, Return loss)
      end
  end.

End NNPrimer.

(** The learnable parameters of one object of a network, if it has any. *)
Definition learnable (obj : layer) : option (R * R) :=
  match obj with
  | Linear l => Some (OurLinear.weight l, OurLinear.bias l)
  | Tanh _ => None
  end.

(** [cached obj]: the attribute that [backward] reads exists. *)
Definition cached (obj : layer) : bool :=
  match obj with
  | Linear l => match OurLinear.x l with Some _ => true | None => false end
  | Tanh a => match OurTanh.y a with Some _ => true | None => false end
  end.

(** ** Double precision

    A Python [float] and a [np.float64] are IEEE binary64 numbers, and
    every arithmetic operation rounds its exact result to a nearest one.
    Two embeddings keep this rounding for the statements that depend on it.

    [Binary64] runs the code of [OurLinear] on the primitive binary64
    numbers of the kernel, whose [+], [-] and [*] are the IEEE operations
    that Python uses; it can be evaluated. *)
Module Binary64.

Module OurLinear.

Record t : Type := mk { weight : float; bias : float; x : option float }.

Definition init (draw_w draw_b : float) : t :=
  {| weight := draw_w; bias := draw_b; x := None |}.

Definition forward (self : t) (x0 : float) : t * float :=
  let self := {| weight := weight self; bias := bias self; x := Some x0 |} in
  let out := (x0 * weight self + bias self)%float in
  (self, out).

Definition backward (self : t) (grad_out lr : float) : t * result float :=
  match getattr "OurLinear" "x" (x self) with
  | Raise e => (self, Raise e)
  | Return x0 =>
      let grad_w := (grad_out * x0)%float in
      let grad_b := grad_out in
      let grad_in := (grad_out * weight self)%float in
      let self :=
        {| weight := (weight self - lr * grad_w)%float; bias := bias self;
           x := x self |} in
      let self :=
        {| weight := weight self; bias := (bias self - lr * grad_b)%float;
           x := x self |} in
      (self, Return grad_in)
  end.

End OurLinear.

End Binary64.

(** The kernel has no hyperbolic tangent.  [Rounded] therefore takes a
    binary64 number as the real number it denotes, [m * 2^e] with
    [|m| < 2^53] and [-1074 <= e <= 971], and lets an operation return a
    binary64 number nearest to its exact result.  [np.tanh], which belongs to
    NumPy and not to the repository, is taken to round the hyperbolic
    tangent in the same way.  A method is a relation between the call and
    what it can leave behind and return. *)
Module Rounded.

Definition pow2 (e : Z) : R :=
  if (0 <=? e)%Z then 2 ^ Z.to_nat e else / 2 ^ Z.to_nat (- e).

Definition is_double (r : R) : Prop :=
  exists m e : Z,
    (Z.abs m < 2 ^ 53)%Z /\ (-1074 <= e <= 971)%Z /\ r = IZR m * pow2 e.

(** [q] is a binary64 number nearest to the real number [r]. *)
Definition nearest (r q : R) : Prop :=
  is_double q /\ forall d : R, is_double d -> Rabs (q - r) <= Rabs (d - r).

(** The binary64 numbers are finitely many; this is their list. *)
Definition integers_between (lo hi : Z) : list Z :=
  map (fun i => (lo + Z.of_nat i)%Z) (seq 0 (Z.to_nat (hi - lo + 1))).

Definition doubles : list R :=
  flat_map
    (fun e => map (fun m => IZR m * pow2 e)
                (integers_between (- 2 ^ 53 + 1) (2 ^ 53 - 1)))
    (integers_between (-1074) 971).

Module OurTanh.

(** [self.y = np.tanh(x); return self.y] *)
Definition forward (self : OurTanh.t) (x : R) (after : OurTanh.t * R) : Prop :=
  exists y0 : R,
    nearest (tanh x) y0 /\ after = ({| OurTanh.y := Some y0 |}, y0).

(** [grad_in = grad_out * (1 - self.y**2); return grad_in]: the square, the
    difference and the product are rounded in turn. *)
Definition backward (self : OurTanh.t) (grad_out lr : R)
           (after : OurTanh.t * result R) : Prop :=
  match getattr "OurTanh" "y" (OurTanh.y self) with
  | Raise e => after = (self, Raise e)
  | Return y0 =>
      exists square difference grad_in : R,
        nearest (y0 ^ 2) square
        /\ nearest (1 - square) difference
        /\ nearest (grad_out * difference) grad_in
        /\ after = (self, Return grad_in)
  end.

End OurTanh.

End Rounded.

(** ** Observations used in the statements *)

Definition is_linear (obj : layer) : bool :=
  match obj with
  | Linear _ => true
  | Tanh _ => false
  end.

(** The cache attribute of an object: [x] of a Linear layer, [y] of a Tanh
    layer. *)
Definition cache_of (obj : layer) : option R :=
  match obj with
  | Linear l => OurLinear.x l
  | Tanh a => OurTanh.y a
  end.

Definition torch_learnable (obj : PyDNN.layer) : option (R * R) :=
  match obj with
  | PyDNN.Linear weight bias => Some (weight, bias)
  | PyDNN.Tanh => None
  end.

Definition primer_learnable (obj : NNPrimer.layer) : option (R * R) :=
  match obj with
  | NNPrimer.Linear l => Some (NNPrimer.OurLinear.w l, NNPrimer.OurLinear.b l)
  | NNPrimer.Tanh _ => None
  end.

(** The (weight, bias) pairs of the objects that have them, in order. *)
Definition pick {A : Type} (read : A -> option (R * R)) (ls : list A)
  : list (R * R) :=
  flat_map (fun obj => match read obj with Some wb => [wb] | None => [] end) ls.

(** The [j]-th round of [OurDNN.__init__]: a new Linear layer with the
    draws number [2j] and [2j+1], and a new Tanh layer. *)
Definition fresh_pair (draw : nat -> R) (j : nat) : list layer :=
  [Linear (OurLinear.init (draw (2 * j)%nat) (draw (S (2 * j))));
   Tanh OurTanh.init].

Definition primer_fresh_pair (draw : nat -> R) (j : nat) : list NNPrimer.layer :=
  [NNPrimer.Linear
     (NNPrimer.OurLinear.init (draw (2 * j)%nat) (draw (S (2 * j))));
   NNPrimer.Tanh NNPrimer.OurTanh.init].

Definition torch_fresh_pair (draw : nat -> R) (j : nat) : list PyDNN.layer :=
  [PyDNN.Linear (draw (2 * j)%nat) (draw (S (2 * j))); PyDNN.Tanh].

(** Position by position, the objects of [ours] with the weight and bias
    of the [nn.Linear] at the same position of [py]. *)
Fixpoint overlay (py : list PyDNN.layer) (ours : list layer) : list layer :=
  match py, ours with
  | p :: py', obj :: ours' =>
      match p with
      | PyDNN.Linear weight bias => setattr_bias (setattr_weight obj weight) bias
      | PyDNN.Tanh => obj
      end :: overlay py' ours'
  | _, _ => ours
  end.

(** A Linear layer with another weight, and with another bias. *)
Definition with_weight (l : OurLinear.t) (w : R) : OurLinear.t :=
  {| OurLinear.weight := w; OurLinear.bias := OurLinear.bias l;
     OurLinear.x := OurLinear.x l |}.

Definition with_bias (l : OurLinear.t) (b : R) : OurLinear.t :=
  {| OurLinear.weight := OurLinear.weight l; OurLinear.bias := b;
     OurLinear.x := OurLinear.x l |}.

(** The loss of the sample [(x, y)] on the network [ls]:
    [OurMSELoss().forward(OurDNN.forward(x), y)]. *)
Definition sample_loss (ls : list layer) (x y : R) : R :=
  snd (OurMSELoss.forward OurMSELoss.init
         (snd (OurDNN.forward (OurDNN.mk ls) x)) y).

(** The loss of the sample [(x, y)] on the network of [NNPrimer.ipynb]
    with one Linear layer of weight [w] and bias [b] and one Tanh layer. *)
Definition primer_sample_loss (w b x y : R) : R :=
  snd (NNPrimer.OurMSELoss.forward NNPrimer.OurMSELoss.init
         (snd (NNPrimer.OurDNN.forward
                 (NNPrimer.OurDNN.mk
                    [NNPrimer.Linear (NNPrimer.OurLinear.mk w b None);
                     NNPrimer.Tanh NNPrimer.OurTanh.init]) x)) y).

(** The batch numbers and the losses of the [after batch] lines. *)
Definition shown_batches (log : list line) : list nat :=
  flat_map (fun ln => match ln with
                      | after_batch i _ _ => [i]
                      | before_training _ => []
                      end) log.

Definition shown_losses (log : list line) : list R :=
  flat_map (fun ln => match ln with
                      | after_batch _ loss _ => [loss]
                      | before_training _ => []
                      end) log.

Definition torch_is_linear (obj : PyDNN.layer) : bool :=
  match obj with
  | PyDNN.Linear _ _ => true
  | PyDNN.Tanh => false
  end.

(** How [copy_params] ends, read off the two lists side by side: the first
    [nn.Linear] for which [our_dnn.layers] has no object raises. *)
Fixpoint copy_ends (py : list PyDNN.layer) (ours : list layer) : completion :=
  match py, ours with
  | [], _ => Completed
  | PyDNN.Linear _ _ :: _, [] => IndexError
  | PyDNN.Tanh :: py', [] => copy_ends py' []
  | _ :: py', _ :: ours' => copy_ends py' ours'
  end.

(** Position by position, the objects of [ours] with [w] and [b] set from
    the list of (weight, bias) pairs, as far as both lists go. *)
Fixpoint primer_overlay (wbs : list (R * R)) (ours : list NNPrimer.layer)
  : list NNPrimer.layer :=
  match wbs, ours with
  | (w, b) :: wbs', obj :: ours' =>
      NNPrimer.setattr_b (NNPrimer.setattr_w obj w) b :: primer_overlay wbs' ours'
  | _, _ => ours
  end.

(** The [j]-th round of a new [OurDNN(n)] of [NNPrimer.ipynb] after
    [copy_params] from a new [PyDNN(n)]: the Linear layer, at position [2j]
    of the list, holds the PyTorch draws of the parameter pair number [2j]
    if there is one, and its own draws otherwise. *)
Definition primer_copied_pair (drawP draw : nat -> R) (n j : nat)
  : list NNPrimer.layer :=
  [NNPrimer.Linear
     (if Nat.ltb (2 * j) n
      then NNPrimer.OurLinear.init (drawP (4 * j)%nat) (drawP (S (4 * j)))
      else NNPrimer.OurLinear.init (draw (2 * j)%nat) (draw (S (2 * j))));
   NNPrimer.Tanh NNPrimer.OurTanh.init].

(** * Properties *)

(** ** The hyperbolic tangent *)

Lemma tanh_as_quotient (x : R) :
  tanh x = (exp x - exp (- x)) / (exp x + exp (- x)).
Proof.
  unfold tanh, sinh, cosh.
  pose proof (exp_pos x); pose proof (exp_pos (- x)).
  field; lra.
Qed.

Lemma tanh_range (x : R) : -1 < tanh x < 1.
Proof.
  rewrite tanh_as_quotient.
  pose proof (exp_pos x) as Hp; pose proof (exp_pos (- x)) as Hn.
  set (p := exp x) in *; set (n := exp (- x)) in *.
  assert (Hs : 0 < p + n) by lra.
  split.
  - apply Rmult_lt_reg_r with (p + n); [exact Hs|].
    unfold Rdiv; rewrite Rmult_assoc, Rinv_l by lra. lra.
  - apply Rmult_lt_reg_r with (p + n); [exact Hs|].
    unfold Rdiv; rewrite Rmult_assoc, Rinv_l by lra. lra.
Qed.

Lemma tanh_square_lt_1 (x : R) : 0 <= tanh x ^ 2 < 1.
Proof.
  pose proof (tanh_range x) as [Hlo Hhi].
  assert (0 < (1 - tanh x) * (1 + tanh x)) by (apply Rmult_lt_0_compat; lra).
  pose proof (pow2_ge_0 (tanh x)).
  split; [assumption|].
  replace (tanh x ^ 2) with (1 - (1 - tanh x) * (1 + tanh x)) by ring.
  lra.
Qed.

Lemma tanh_1_pos : 0 < tanh 1.
Proof.
  rewrite tanh_as_quotient.
  pose proof (exp_pos 1); pose proof (exp_pos (Ropp 1)).
  assert (exp (Ropp 1) < exp 1) by (apply exp_increasing; lra).
  apply Rdiv_lt_0_compat; lra.
Qed.

(** ** Single layers and the loss *)

(** C2.  A Linear layer whose cached input is [x0] returns
    [grad_out * weight] with the weight it had before the call, and leaves
    [weight - lr * (grad_out * x0)] and [bias - lr * grad_out] behind, over
    the reals and operation by operation on binary64 numbers; the cached
    input is the argument of the last [forward].  On weight 0.5, bias -0.4,
    input 1.0, lr 0.1 and grad_out 1.0, in double precision: forward returns
    [1.0 * 0.5 + (-0.4)], which is 0.09999999999999998
    ([0x1.9999999999998p-4]), backward returns 0.5, and the layer ends with
    weight 0.4 and bias -0.5. *)
Theorem linear_backward_pre_update_weight :
  (forall w b x0 grad_out lr : R,
      OurLinear.backward (OurLinear.mk w b (Some x0)) grad_out lr
      = (OurLinear.mk (w - lr * (grad_out * x0)) (b - lr * grad_out) (Some x0),
         Return (grad_out * w)))
  /\ (forall (self : OurLinear.t) (x0 : R),
         OurLinear.x (fst (OurLinear.forward self x0)) = Some x0)
  /\ (forall w b x0 grad_out lr : float,
         Binary64.OurLinear.backward
           (Binary64.OurLinear.mk w b (Some x0)) grad_out lr
         = (Binary64.OurLinear.mk (w - lr * (grad_out * x0))%float
              (b - lr * grad_out)%float (Some x0),
            Return (grad_out * w)%float))
  /\ (forall cache : option float,
         let fresh := Binary64.OurLinear.mk 0.5 (-0.4) cache in
         snd (Binary64.OurLinear.forward fresh 1.0)
         = 0x1.9999999999998p-4%float
         /\ Binary64.OurLinear.backward
              (fst (Binary64.OurLinear.forward fresh 1.0)) 1.0 0.1
            = (Binary64.OurLinear.mk 0.4 (-0.5) (Some 1.0%float),
               Return 0.5%float)).
Proof.
  split; [|split; [|split]].
  - intros; reflexivity.
  - intros; reflexivity.
  - intros; reflexivity.
  - intros cache fresh; subst fresh; split; vm_compute; reflexivity.
Qed.

(** C2, as the claim words it.  On binary64 numbers, what [forward]
    returns on weight 0.5, bias -0.4 and input 1.0 is not the number that
    [0.1] denotes: [0.5 - 0.4] is exact there and [0.4] is not. *)
Lemma linear_forward_is_not_one_tenth :
  snd (Binary64.OurLinear.forward (Binary64.OurLinear.mk 0.5 (-0.4) None) 1.0)
  = 0x1.9999999999998p-4%float
  /\ PrimFloat.eqb
       (snd (Binary64.OurLinear.forward
               (Binary64.OurLinear.mk 0.5 (-0.4) None) 1.0)) 0.1
     = false
  /\ snd (Binary64.OurLinear.forward
            (Binary64.OurLinear.mk 0.5 (-0.4) None) 1.0)
     <> 0.1%float.
Proof.
  split; [vm_compute; reflexivity|].
  split; [vm_compute; reflexivity|].
  intros E.
  assert (H : PrimFloat.eqb
                (snd (Binary64.OurLinear.forward
                        (Binary64.OurLinear.mk 0.5 (-0.4) None) 1.0)) 0.1
              = PrimFloat.eqb 0.1 0.1) by (rewrite E; reflexivity).
  vm_compute in H. discriminate H.
Qed.

(** C3.  For every prediction [p] and target [t], in both notebooks,
    [forward(p, t)] returns [(t - p)^2] and the [backward()] that follows
    returns [-2 * (t - p)]. *)
Theorem mse_loss_forward_backward (p t : R) :
  (forall self : OurMSELoss.t,
      snd (OurMSELoss.forward self p t) = (t - p) ^ 2
      /\ snd (OurMSELoss.backward (fst (OurMSELoss.forward self p t)))
         = Return (-2 * (t - p)))
  /\ (forall self : NNPrimer.OurMSELoss.t,
         snd (NNPrimer.OurMSELoss.forward self p t) = (t - p) ^ 2
         /\ snd (NNPrimer.OurMSELoss.backward
                   (fst (NNPrimer.OurMSELoss.forward self p t)))
            = Return (-2 * (t - p))).
Proof.
  split; intros self; split; reflexivity.
Qed.

(** C4.  In both notebooks [OurTanh.forward(x)] returns [tanh x] and stores
    it in [y]; the [backward(grad_out, lr)] that follows returns
    [grad_out * (1 - y^2)] whatever [lr] is, and leaves the object as it
    was: the class has no learnable parameter. *)
Theorem tanh_forward_backward (x grad_out lr : R) :
  (forall self : OurTanh.t,
      OurTanh.forward self x = (OurTanh.mk (Some (tanh x)), tanh x)
      /\ OurTanh.backward (fst (OurTanh.forward self x)) grad_out lr
         = (fst (OurTanh.forward self x),
            Return (grad_out * (1 - tanh x ^ 2))))
  /\ (forall self : NNPrimer.OurTanh.t,
         NNPrimer.OurTanh.forward self x
         = (NNPrimer.OurTanh.mk (Some (tanh x)), tanh x)
         /\ NNPrimer.OurTanh.backward
              (fst (NNPrimer.OurTanh.forward self x)) grad_out lr
            = (fst (NNPrimer.OurTanh.forward self x),
               Return (grad_out * (1 - tanh x ^ 2)))).
Proof.
  split; intros self; split; reflexivity.
Qed.

(** C5.  [backward] on a newly constructed Linear layer, Tanh layer or loss,
    before any [forward], raises [AttributeError] on the missing cache
    attribute, leaves the object as it was and returns no value. *)
Theorem backward_before_forward_raises :
  (forall draw_w draw_b grad_out lr : R,
      OurLinear.backward (OurLinear.init draw_w draw_b) grad_out lr
      = (OurLinear.init draw_w draw_b,
         Raise (AttributeError "OurLinear" "x")))
  /\ (forall grad_out lr : R,
         OurTanh.backward OurTanh.init grad_out lr
         = (OurTanh.init, Raise (AttributeError "OurTanh" "y")))
  /\ OurMSELoss.backward OurMSELoss.init
     = (OurMSELoss.init, Raise (AttributeError "OurMSELoss" "z")).
Proof.
  repeat split.
Qed.

(** C6.  For every layer in any state and every input, a second
    [forward(x)] right after the first returns the same value and leaves the
    layer in the state the first call left it: the cache is overwritten. *)
Theorem forward_twice_same (x : R) :
  (forall self : OurLinear.t,
      OurLinear.forward (fst (OurLinear.forward self x)) x
      = OurLinear.forward self x)
  /\ (forall self : OurTanh.t,
         OurTanh.forward (fst (OurTanh.forward self x)) x
         = OurTanh.forward self x)
  /\ (forall obj : layer,
         layer_forward (fst (layer_forward obj x)) x = layer_forward obj x).
Proof.
  split; [|split].
  - intros self; reflexivity.
  - intros self; reflexivity.
  - intros [l|a]; reflexivity.
Qed.

(** ** The Tanh layer in double precision *)

Lemma is_double_small_integer (m : Z) :
  (Z.abs m < 2 ^ 53)%Z -> Rounded.is_double (IZR m).
Proof.
  intros Hm. exists m, 0%Z. split; [exact Hm|]. split; [lia|].
  unfold Rounded.pow2; simpl. ring.
Qed.

Lemma is_double_opp (r : R) : Rounded.is_double r -> Rounded.is_double (- r).
Proof.
  intros (m & e & Hm & He & ->).
  exists (- m)%Z, e. split; [lia|]. split; [exact He|].
  rewrite opp_IZR. ring.
Qed.

Lemma nearest_exact (r q : R) :
  Rounded.is_double r -> Rounded.nearest r q -> q = r.
Proof.
  intros Hr [_ Hq]. specialize (Hq r Hr).
  replace (r - r) with 0 in Hq by ring. rewrite Rabs_R0 in Hq.
  pose proof (Rabs_pos (q - r)).
  destruct (Req_dec (q - r) 0) as [Z|NZ]; [lra|].
  apply Rabs_no_R0 in NZ. lra.
Qed.

Lemma nearest_itself (r : R) : Rounded.is_double r -> Rounded.nearest r r.
Proof.
  intros Hr; split; [exact Hr|]. intros d _.
  replace (r - r) with 0 by ring. rewrite Rabs_R0. apply Rabs_pos.
Qed.

(** Rounding to nearest never leaves an interval whose ends are binary64
    numbers. *)
Lemma nearest_between (lo hi r q : R) :
  Rounded.is_double lo -> Rounded.is_double hi -> lo <= r <= hi ->
  Rounded.nearest r q -> lo <= q <= hi.
Proof.
  intros Hlo Hhi [Hl Hh] [_ Hq].
  pose proof (Hq lo Hlo) as Qlo. pose proof (Hq hi Hhi) as Qhi.
  unfold Rabs in *.
  repeat destruct Rcase_abs in *; lra.
Qed.

Lemma two_to_the_pos (n : nat) : 0 < 2 ^ n.
Proof. apply pow_lt; lra. Qed.

(** The binary64 number just below 1 is [1 - 2^-53]. *)
Lemma no_double_just_below_1 (d : R) :
  Rounded.is_double d -> d < 1 -> d <= 1 - / 2 ^ 53.
Proof.
  intros (m & e & Hm & _ & ->) Hlt.
  pose proof (two_to_the_pos 53) as P53.
  assert (Hhalf : / 2 ^ 53 <= / 2).
  { apply Rinv_le_contravar; [lra|].
    replace 2 with (2 ^ 1) at 1 by ring. apply Rle_pow; [lra|lia]. }
  unfold Rounded.pow2 in *.
  destruct (0 <=? e)%Z.
  - pose proof (two_to_the_pos (Z.to_nat e)) as Pe.
    assert (1 <= 2 ^ Z.to_nat e) by (apply pow_R1_Rle; lra).
    destruct (Z_le_gt_dec m 0) as [Hm0|Hm0].
    + apply IZR_le in Hm0.
      assert (IZR m * 2 ^ Z.to_nat e <= 0) by nra. lra.
    + assert (1 <= IZR m) by (apply IZR_le; lia). nra.
  - set (k := Z.to_nat (- e)) in *.
    pose proof (two_to_the_pos k) as Pk.
    assert (Hmk : IZR m < 2 ^ k).
    { apply Rmult_lt_reg_r with (/ 2 ^ k); [now apply Rinv_0_lt_compat|].
      rewrite Rinv_r by lra. exact Hlt. }
    destruct (le_lt_dec k 53) as [Hk|Hk].
    + assert (Hmk' : IZR m <= 2 ^ k - 1).
      { replace (2 ^ k) with (IZR (2 ^ Z.of_nat k)) in *
          by (rewrite <- pow_IZR; reflexivity).
        apply lt_IZR in Hmk. rewrite <- minus_IZR. apply IZR_le. lia. }
      assert (Hinv : / 2 ^ 53 <= / 2 ^ k).
      { apply Rinv_le_contravar; [exact Pk|]. apply Rle_pow; [lra|lia]. }
      apply Rle_trans with ((2 ^ k - 1) * / 2 ^ k).
      * apply Rmult_le_compat_r; [left; now apply Rinv_0_lt_compat|exact Hmk'].
      * rewrite Rmult_minus_distr_r, Rinv_r by lra. lra.
    + assert (Hm53 : IZR m < 2 ^ 53).
      { replace (2 ^ 53) with (IZR (2 ^ Z.of_nat 53))
          by (rewrite <- pow_IZR; reflexivity).
        apply IZR_lt. change (Z.of_nat 53) with 53%Z. lia. }
      assert (Hpow : 2 * 2 ^ 53 <= 2 ^ k).
      { change (2 * 2 ^ 53) with (2 ^ 54). apply Rle_pow; [lra|lia]. }
      assert (IZR m * / 2 ^ k <= / 2).
      { apply Rmult_le_reg_r with (2 ^ k); [exact Pk|].
        rewrite Rmult_assoc, Rinv_l by lra. lra. }
      lra.
Qed.

Lemma exp_nat_mult (x : R) (n : nat) : exp (INR n * x) = exp x ^ n.
Proof.
  induction n as [|n IH].
  - simpl. rewrite Rmult_0_l. apply exp_0.
  - rewrite S_INR, Rmult_plus_distr_r, Rmult_1_l, exp_plus, IH. simpl. ring.
Qed.

Lemma exp_20_large : 2 ^ 28 < exp 20.
Proof.
  replace 20 with (INR 640 * / 32).
  2:{ replace (INR 640) with 640 by (rewrite INR_IZR_INZ; reflexivity). lra. }
  rewrite exp_nat_mult.
  apply Rlt_le_trans with ((33 / 32) ^ 640).
  - apply Rmult_lt_reg_r with (32 ^ 640); [apply pow_lt; lra|].
    rewrite <- Rpow_mult_distr.
    replace (33 / 32 * 32) with 33 by lra.
    rewrite !pow_IZR, <- mult_IZR.
    apply IZR_lt. vm_compute. reflexivity.
  - apply pow_incr. split; [lra|].
    pose proof (exp_ineq1_le (/ 32)). lra.
Qed.

(** From 20 on, the hyperbolic tangent is less than a quarter of the gap
    between 1 and the binary64 number below it away from 1. *)
Lemma tanh_close_to_1 (x : R) : 20 <= x -> 0 < 1 - tanh x < / 2 ^ 54.
Proof.
  intros Hx.
  rewrite tanh_as_quotient, exp_Ropp.
  assert (Hp : 2 ^ 28 < exp x).
  { apply Rlt_le_trans with (exp 20); [apply exp_20_large|].
    destruct Hx as [Hx| <-]; [left; now apply exp_increasing|right; reflexivity]. }
  set (p := exp x) in *.
  assert (P28 : 0 < 2 ^ 28) by (apply pow_lt; lra).
  assert (Pp : 0 < p) by lra.
  assert (Pi : 0 < / p) by now apply Rinv_0_lt_compat.
  assert (E : 1 - (p - / p) / (p + / p) = 2 / (p * p + 1)).
  { field. split; nra. }
  rewrite E.
  assert (P54 : 0 < 2 ^ 54) by (apply pow_lt; lra).
  split.
  - apply Rdiv_lt_0_compat; nra.
  - assert (H56 : 2 ^ 28 * 2 ^ 28 < p * p) by nra.
    replace (2 ^ 28 * 2 ^ 28) with (4 * 2 ^ 54) in H56 by ring.
    apply Rmult_lt_reg_r with ((p * p + 1) * 2 ^ 54); [nra|].
    replace (2 / (p * p + 1) * ((p * p + 1) * 2 ^ 54)) with (2 * 2 ^ 54)
      by (field; nra).
    replace (/ 2 ^ 54 * ((p * p + 1) * 2 ^ 54)) with (p * p + 1)
      by (field; lra).
    lra.
Qed.

(** So from 20 on, 1 is the only binary64 number nearest to it. *)
Lemma tanh_rounds_to_1 (x : R) :
  20 <= x ->
  Rounded.nearest (tanh x) 1
  /\ forall q : R, Rounded.nearest (tanh x) q -> q = 1.
Proof.
  intros Hx.
  destruct (tanh_close_to_1 x Hx) as [Hlo Hhi].
  assert (D1 : Rounded.is_double 1) by (apply (is_double_small_integer 1); lia).
  assert (P53 : 0 < / 2 ^ 53) by (apply Rinv_0_lt_compat, pow_lt; lra).
  assert (E54 : / 2 ^ 53 = 2 * / 2 ^ 54).
  { change (2 ^ 54) with (2 * 2 ^ 53). field; apply pow_nonzero; lra. }
  assert (Hfar : forall d, Rounded.is_double d -> d <> 1 ->
                           Rabs (1 - tanh x) < Rabs (d - tanh x)).
  { intros d Hd Hne.
    destruct (Rlt_le_dec d 1) as [Hd1|Hd1].
    - pose proof (no_double_just_below_1 d Hd Hd1).
      rewrite (Rabs_pos_eq (1 - tanh x)) by lra.
      rewrite (Rabs_left (d - tanh x)) by lra. lra.
    - rewrite (Rabs_pos_eq (1 - tanh x)) by lra.
      rewrite (Rabs_pos_eq (d - tanh x)) by lra. lra. }
  split.
  - split; [exact D1|]. intros d Hd.
    destruct (Req_dec d 1) as [->|Hne]; [lra|].
    left. now apply Hfar.
  - intros q [Hq Hn].
    destruct (Req_dec q 1) as [E|Hne]; [exact E|].
    pose proof (Hfar q Hq Hne). specialize (Hn 1 D1). lra.
Qed.

Lemma in_integers_between (lo hi z : Z) :
  In z (Rounded.integers_between lo hi) <-> (lo <= z <= hi)%Z.
Proof.
  unfold Rounded.integers_between. rewrite in_map_iff. split.
  - intros (i & <- & Hi). apply in_seq in Hi. lia.
  - intros H. exists (Z.to_nat (z - lo)). split; [lia|].
    apply in_seq. lia.
Qed.

Lemma is_double_listed (r : R) : Rounded.is_double r <-> In r Rounded.doubles.
Proof.
  unfold Rounded.doubles. rewrite in_flat_map. split.
  - intros (m & e & Hm & He & ->). exists e. split.
    + apply in_integers_between. exact He.
    + apply in_map_iff. exists m. split; [reflexivity|].
      apply in_integers_between. lia.
  - intros (e & He & Hr). apply in_integers_between in He.
    apply in_map_iff in Hr as (m & <- & Hm).
    apply in_integers_between in Hm.
    exists m, e. split; [lia|]. split; [exact He|reflexivity].
Qed.

Lemma closest_in_list (l : list R) (r : R) :
  l <> [] ->
  exists q : R, In q l /\ forall d : R, In d l -> Rabs (q - r) <= Rabs (d - r).
Proof.
  induction l as [|a [|b t] IH]; intros Hne.
  - contradiction.
  - exists a. split; [now left|]. intros d [<-|[]]. lra.
  - destruct IH as (q & Hq & Hmin); [discriminate|].
    destruct (Rle_lt_dec (Rabs (a - r)) (Rabs (q - r))) as [Ha|Ha].
    + exists a. split; [now left|].
      intros d [<-|Hd]; [lra|]. specialize (Hmin d Hd). lra.
    + exists q. split; [now right|].
      intros d [<-|Hd]; [lra|]. now apply Hmin.
Qed.

(** Every real number has a nearest binary64 number: every operation of
    [Rounded] returns. *)
Lemma nearest_exists (r : R) : exists q : R, Rounded.nearest r q.
Proof.
  assert (D0 : In 0 Rounded.doubles).
  { apply is_double_listed. exists 0%Z, 0%Z. split; [lia|]. split; [lia|].
    unfold Rounded.pow2; simpl; ring. }
  destruct (closest_in_list Rounded.doubles r) as (q & Hq & Hmin).
  - intros E. rewrite E in D0. contradiction.
  - exists q. split; [now apply is_double_listed|].
    intros d Hd. apply Hmin. now apply is_double_listed.
Qed.

Lemma tanh_at_0 : tanh 0 = 0.
Proof. unfold tanh. rewrite sinh_0. unfold Rdiv. ring. Qed.

(** C10.  In double precision, [OurTanh.forward(x)] returns, and the
    output [y] it caches lies between -1 and 1, both included, so
    [0 <= 1 - y^2 <= 1]; [backward(grad_out, lr)] then returns, and the
    gradient it returns is no larger than [grad_out] in absolute value and
    never of the opposite sign. *)
Theorem tanh_backward_contracts (self : OurTanh.t) (x grad_out lr : R) :
  Rounded.is_double grad_out ->
  (exists after_forward : OurTanh.t * R,
      Rounded.OurTanh.forward self x after_forward)
  /\ forall after_forward : OurTanh.t * R,
      Rounded.OurTanh.forward self x after_forward ->
      exists y : R,
        after_forward = (OurTanh.mk (Some y), y)
        /\ -1 <= y <= 1
        /\ 0 <= 1 - y ^ 2 <= 1
        /\ (exists after_backward : OurTanh.t * result R,
               Rounded.OurTanh.backward (fst after_forward) grad_out lr
                 after_backward)
        /\ forall after_backward : OurTanh.t * result R,
            Rounded.OurTanh.backward (fst after_forward) grad_out lr
              after_backward ->
            exists grad_in : R,
              after_backward = (OurTanh.mk (Some y), Return grad_in)
              /\ Rabs grad_in <= Rabs grad_out
              /\ 0 <= grad_in * grad_out.
Proof.
  intros Hg.
  assert (D0 : Rounded.is_double 0) by (apply (is_double_small_integer 0); lia).
  assert (D1 : Rounded.is_double 1) by (apply (is_double_small_integer 1); lia).
  assert (Dm1 : Rounded.is_double (- (1)))
    by (apply is_double_opp; exact D1).
  split.
  { destruct (nearest_exists (tanh x)) as [y Hy].
    exists (OurTanh.mk (Some y), y), y. split; [exact Hy|reflexivity]. }
  intros after_forward (y & Hy & ->).
  pose proof (tanh_range x) as Ht.
  assert (By : -1 <= y <= 1)
    by (apply (nearest_between (- (1)) 1 (tanh x) y); trivial; lra).
  assert (Byy : 0 <= y ^ 2 <= 1).
  { split; [apply pow2_ge_0|].
    replace (y ^ 2) with (1 - (1 - y) * (1 + y)) by ring.
    assert (0 <= (1 - y) * (1 + y)) by (apply Rmult_le_pos; lra). lra. }
  exists y. split; [reflexivity|]. split; [exact By|]. split; [lra|].
  cbn [fst Rounded.OurTanh.backward OurTanh.y getattr].
  split.
  { destruct (nearest_exists (y ^ 2)) as [sq Hsq].
    destruct (nearest_exists (1 - sq)) as [c Hc].
    destruct (nearest_exists (grad_out * c)) as [gin Hgin].
    exists (OurTanh.mk (Some y), Return gin), sq, c, gin.
    repeat (split; [assumption|]). reflexivity. }
  intros after_backward (sq & c & gin & Hsq & Hc & Hgin & ->).
  assert (Bsq : 0 <= sq <= 1)
    by (apply (nearest_between 0 1 (y ^ 2) sq); trivial).
  assert (Bc : 0 <= c <= 1)
    by (apply (nearest_between 0 1 (1 - sq) c); trivial; lra).
  exists gin. split; [reflexivity|].
  destruct (Rle_lt_dec 0 grad_out) as [Hpos|Hneg].
  - assert (Bg : 0 <= gin <= grad_out)
      by (apply (nearest_between 0 grad_out (grad_out * c) gin); trivial; nra).
    split; [rewrite !Rabs_pos_eq; lra|nra].
  - assert (Bg : grad_out <= gin <= 0)
      by (apply (nearest_between grad_out 0 (grad_out * c) gin); trivial; nra).
    split; [|nra].
    rewrite (Rabs_left grad_out) by lra.
    destruct (Req_dec gin 0) as [->|Hne]; [rewrite Rabs_R0; lra|].
    rewrite (Rabs_left gin) by lra. lra.
Qed.

Lemma tanh_backward_contracts_witness :
  Rounded.is_double 1
  /\ Rounded.OurTanh.forward OurTanh.init 0 (OurTanh.mk (Some 0), 0)
  /\ Rounded.OurTanh.backward (OurTanh.mk (Some 0)) 1 0.1
       (OurTanh.mk (Some 0), Return 1)
  /\ forall after_forward : OurTanh.t * R,
      Rounded.OurTanh.forward OurTanh.init 0 after_forward ->
      exists y : R,
        after_forward = (OurTanh.mk (Some y), y)
        /\ -1 <= y <= 1
        /\ 0 <= 1 - y ^ 2 <= 1
        /\ (exists after_backward : OurTanh.t * result R,
               Rounded.OurTanh.backward (fst after_forward) 1 0.1
                 after_backward)
        /\ forall after_backward : OurTanh.t * result R,
            Rounded.OurTanh.backward (fst after_forward) 1 0.1
              after_backward ->
            exists grad_in : R,
              after_backward = (OurTanh.mk (Some y), Return grad_in)
              /\ Rabs grad_in <= Rabs 1
              /\ 0 <= grad_in * 1.
Proof.
  assert (D0 : Rounded.is_double 0) by (apply (is_double_small_integer 0); lia).
  assert (D1 : Rounded.is_double 1) by (apply (is_double_small_integer 1); lia).
  split; [exact D1|]. split; [|split].
  - exists 0; split; [|reflexivity].
    rewrite tanh_at_0. now apply nearest_itself.
  - exists 0, 1, 1. split; [|split; [|split]].
    + replace (0 ^ 2) with 0 by ring. now apply nearest_itself.
    + replace (1 - 0) with 1 by ring. now apply nearest_itself.
    + replace (1 * 1) with 1 by ring. now apply nearest_itself.
    + reflexivity.
  - exact (proj2 (tanh_backward_contracts OurTanh.init 0 1 0.1 D1)).
Defined.

(** C10, as the claim words it.  In double precision [forward(20.0)]
    caches and returns exactly 1: the bound [y < 1] fails, [1 - y^2] is 0
    and not positive, and [backward] returns the gradient 0. *)
Lemma tanh_forward_saturates_at_20 :
  Rounded.is_double 20
  /\ Rounded.OurTanh.forward OurTanh.init 20 (OurTanh.mk (Some 1), 1)
  /\ (forall after : OurTanh.t * R,
         Rounded.OurTanh.forward OurTanh.init 20 after ->
         after = (OurTanh.mk (Some 1), 1))
  /\ ~ (forall (x : R) (after : OurTanh.t * R),
           Rounded.is_double x ->
           Rounded.OurTanh.forward OurTanh.init x after ->
           -1 < snd after < 1 /\ 0 < 1 - snd after ^ 2)
  /\ (forall (lr : R) (after : OurTanh.t * result R),
         Rounded.OurTanh.backward (OurTanh.mk (Some 1)) 1 lr after ->
         after = (OurTanh.mk (Some 1), Return 0)).
Proof.
  assert (D0 : Rounded.is_double 0) by (apply (is_double_small_integer 0); lia).
  assert (D1 : Rounded.is_double 1) by (apply (is_double_small_integer 1); lia).
  assert (D20 : Rounded.is_double 20)
    by (apply (is_double_small_integer 20); lia).
  destruct (tanh_rounds_to_1 20 (Rle_refl 20)) as [N1 U1].
  assert (F : Rounded.OurTanh.forward OurTanh.init 20 (OurTanh.mk (Some 1), 1))
    by (exists 1; split; [exact N1|reflexivity]).
  split; [exact D20|]. split; [exact F|]. split; [|split].
  - intros after (y & Hy & ->). now rewrite (U1 y Hy).
  - intros H. specialize (H 20 _ D20 F). cbn [snd] in H. lra.
  - intros lr after (sq & c & gin & Hsq & Hc & Hgin & ->).
    replace (1 ^ 2) with 1 in Hsq by ring.
    apply (nearest_exact 1 sq D1) in Hsq. subst sq.
    replace (1 - 1) with 0 in Hc by ring.
    apply (nearest_exact 0 c D0) in Hc. subst c.
    replace (1 * 0) with 0 in Hgin by ring.
    apply (nearest_exact 0 gin D0) in Hgin. now subst gin.
Qed.

(** ** The loops of a network *)

Section LoopFacts.

Context {L : Type} `{Layer L}.

Lemma forward_loop_length (ls : list L) (x : R) :
  List.length (fst (forward_loop ls x)) = List.length ls.
Proof.
  revert x; induction ls as [|layer rest IH]; intros x; simpl.
  - reflexivity.
  - destruct (layer_forward layer x) as [layer' x'].
    specialize (IH x').
    destruct (forward_loop rest x') as [rest' out]; simpl in *.
    now rewrite IH.
Qed.

Lemma backward_loop_app (front back : list L) (grad_out lr : R) :
  backward_loop (front ++ back) grad_out lr
  = match backward_loop front grad_out lr with
    | (front', Raise e) => (front' ++ back, Raise e)
    | (front', Return g) =>
        let (back', out) := backward_loop back g lr in
        (front' ++ back', out)
    end.
Proof.
  revert grad_out; induction front as [|layer rest IH]; intros grad_out; simpl.
  - now destruct (backward_loop back grad_out lr).
  - destruct (layer_backward layer grad_out lr) as [layer' [g|e]].
    + rewrite IH.
      destruct (backward_loop rest g lr) as [rest' [g'|e]].
      * now destruct (backward_loop back g' lr).
      * reflexivity.
    + reflexivity.
Qed.

(** Running the loop over the reversed list and putting the objects back
    in their places is the backward pass of the specification. *)
Lemma backward_loop_reversed (ls : list L) (grad_out lr : R) :
  (let (visited, out) := backward_loop (rev ls) grad_out lr in
   (rev visited, out))
  = backward_chain ls grad_out lr.
Proof.
  induction ls as [|layer rest IH]; simpl.
  - reflexivity.
  - rewrite backward_loop_app, <- IH.
    destruct (backward_loop (rev rest) grad_out lr) as [visited [g|e]]; simpl.
    + destruct (layer_backward layer g lr) as [layer' [g'|e]];
        now rewrite rev_app_distr.
    + now rewrite rev_app_distr.
Qed.

(** The last layer runs backward first, on the [grad_out] of the call; the
    layers before it then run on what it returned. *)
Lemma backward_chain_last (front : list L) (layer : L) (grad_out lr : R) :
  backward_chain (front ++ [layer]) grad_out lr
  = match layer_backward layer grad_out lr with
    | (layer', Raise e) => (front ++ [layer'], Raise e)
    | (layer', Return g) =>
        let (front', out) := backward_chain front g lr in
        (front' ++ [layer'], out)
    end.
Proof.
  induction front as [|first rest IH]; simpl.
  - now destruct (layer_backward layer grad_out lr) as [layer' [g|e]].
  - rewrite IH.
    destruct (layer_backward layer grad_out lr) as [layer' [g|e]].
    + destruct (backward_chain rest g lr) as [rest' [g'|e]].
      * now destruct (layer_backward first g' lr).
      * reflexivity.
    + reflexivity.
Qed.

End LoopFacts.

(** The annotated notebook's [OurDNN.backward] is the backward pass of the
    specification, for every network, gradient and learning rate. *)
Lemma OurDNN_backward_is_chain (self : OurDNN.t) (grad_out lr : R) :
  OurDNN.backward self grad_out lr
  = (let (ls, out) := backward_chain (OurDNN.layers self) grad_out lr in
     (OurDNN.mk ls, out)).
Proof.
  unfold OurDNN.backward.
  rewrite <- backward_loop_reversed.
  now destruct (backward_loop (rev (OurDNN.layers self)) grad_out lr).
Qed.

Lemma forward_loop_learnable (ls : list layer) (x : R) :
  map learnable (fst (forward_loop ls x)) = map learnable ls.
Proof.
  revert x; induction ls as [|obj rest IH]; intros x; simpl.
  - reflexivity.
  - destruct obj as [l|a]; simpl;
      match goal with
      | |- context [forward_loop rest ?v] =>
          specialize (IH v); destruct (forward_loop rest v) as [rest' out]
      end; simpl in *; now rewrite IH.
Qed.

Lemma get_params_learnable (acc : params) (ls ls' : list layer) :
  map learnable ls = map learnable ls' ->
  fold_left
    (fun p obj =>
       match obj with
       | Linear l =>
           {| ws := ws p ++ [OurLinear.weight l];
              bs := bs p ++ [OurLinear.bias l] |}
       | Tanh _ => p
       end) ls acc
  = fold_left
      (fun p obj =>
         match obj with
         | Linear l =>
             {| ws := ws p ++ [OurLinear.weight l];
                bs := bs p ++ [OurLinear.bias l] |}
         | Tanh _ => p
         end) ls' acc.
Proof.
  revert acc ls'; induction ls as [|obj rest IH]; intros acc [|obj' rest'] E;
    simpl in E; try discriminate; [reflexivity|].
  injection E as Eo Er.
  destruct obj as [l|a], obj' as [l'|a']; simpl in Eo; try discriminate; simpl.
  - injection Eo as -> ->. now apply IH.
  - now apply IH.
Qed.

Lemma forward_loop_cached (ls : list layer) (x : R) :
  forallb cached (fst (forward_loop ls x)) = true.
Proof.
  revert x; induction ls as [|obj rest IH]; intros x; simpl.
  - reflexivity.
  - destruct obj as [l|a]; simpl;
      match goal with
      | |- context [forward_loop rest ?v] =>
          specialize (IH v); destruct (forward_loop rest v) as [rest' out]
      end; simpl in *; exact IH.
Qed.

Lemma layer_backward_cached (obj : layer) (grad_out lr : R) :
  cached obj = true ->
  exists (obj' : layer) (grad_in : R),
    layer_backward obj grad_out lr = (obj', Return grad_in)
    /\ cached obj' = true.
Proof.
  destruct obj as [[w b [x0|]]|[[y0|]]]; simpl; intros E; try discriminate;
    eexists; eexists; split; reflexivity.
Qed.

Lemma backward_chain_cached (ls : list layer) (grad_out lr : R) :
  forallb cached ls = true ->
  exists (ls' : list layer) (grad_in : R),
    backward_chain ls grad_out lr = (ls', Return grad_in)
    /\ List.length ls' = List.length ls.
Proof.
  induction ls as [|obj rest IH]; intros E.
  - exists [], grad_out; split; reflexivity.
  - cbn [forallb] in E; cbn [backward_chain].
    apply andb_prop in E as [Eo Er].
    destruct (IH Er) as (rest' & g & -> & Hlen).
    destruct (layer_backward_cached obj g lr Eo) as (obj' & g' & -> & _).
    exists (obj' :: rest'), g'; split; [reflexivity|].
    simpl; now rewrite Hlen.
Qed.

(** After a forward pass the annotated notebook's [OurDNN.backward] raises
    nothing: it returns a gradient and keeps the number of layers. *)
Lemma OurDNN_backward_after_forward (dnn : OurDNN.t) (x grad_out lr : R) :
  exists (dnn' : OurDNN.t) (grad_in : R),
    OurDNN.backward (fst (OurDNN.forward dnn x)) grad_out lr
    = (dnn', Return grad_in)
    /\ List.length (OurDNN.layers dnn') = List.length (OurDNN.layers dnn).
Proof.
  rewrite OurDNN_backward_is_chain.
  unfold OurDNN.forward.
  pose proof (forward_loop_cached (OurDNN.layers dnn) x) as Hc.
  pose proof (forward_loop_length (OurDNN.layers dnn) x) as Hl.
  destruct (forward_loop (OurDNN.layers dnn) x) as [ls out]; simpl in *.
  destruct (backward_chain_cached ls grad_out lr Hc) as (ls' & g & -> & Hlen).
  exists (OurDNN.mk ls'), g; split; [reflexivity|].
  simpl; congruence.
Qed.

(** C7.  [forward] changes no learnable parameter: after
    [OurLinear.forward(x)] the weight and the bias are what they were and
    only the cached input is new; after [OurDNN.forward(x)] the network
    holds as many objects as before, each with the parameters it had, and
    [get_params] reads the same weights and biases. *)
Theorem forward_keeps_parameters (x : R) :
  (forall self : OurLinear.t,
      OurLinear.weight (fst (OurLinear.forward self x)) = OurLinear.weight self
      /\ OurLinear.bias (fst (OurLinear.forward self x)) = OurLinear.bias self
      /\ OurLinear.x (fst (OurLinear.forward self x)) = Some x)
  /\ (forall dnn : OurDNN.t,
         map learnable (OurDNN.layers (fst (OurDNN.forward dnn x)))
         = map learnable (OurDNN.layers dnn)
         /\ get_params (fst (OurDNN.forward dnn x)) = get_params dnn).
Proof.
  split.
  - intros self; repeat split.
  - intros dnn.
    assert (E : map learnable (OurDNN.layers (fst (OurDNN.forward dnn x)))
                = map learnable (OurDNN.layers dnn)).
    { unfold OurDNN.forward.
      pose proof (forward_loop_learnable (OurDNN.layers dnn) x) as E.
      destruct (forward_loop (OurDNN.layers dnn) x); exact E. }
    split; [exact E|].
    unfold get_params. now apply get_params_learnable.
Qed.

(** C9.  A network built with [n = 0] holds no layer; its [forward(x)]
    returns [x] and its [backward(grad_out, lr)] returns [grad_out], for
    every [x], [grad_out] and [lr], and neither changes the network. *)
Theorem empty_network_is_identity (draw : nat -> R) (x grad_out lr : R) :
  OurDNN.layers (OurDNN.init 0 draw) = []
  /\ OurDNN.forward (OurDNN.init 0 draw) x = (OurDNN.init 0 draw, x)
  /\ OurDNN.backward (OurDNN.init 0 draw) grad_out lr
     = (OurDNN.init 0 draw, Return grad_out).
Proof.
  repeat split.
Qed.

(** ** The order of the backward pass *)

(** Evaluation of a network of either notebook on given numbers, down to
    the arithmetic on the reals. *)
Ltac run_network :=
  cbv [OurDNN.init OurDNN.init_loop OurDNN.forward OurDNN.backward
       OurDNN.layers OurLinear.init OurLinear.forward OurLinear.backward
       OurLinear.weight OurLinear.bias OurLinear.x
       OurTanh.init OurTanh.forward OurTanh.backward OurTanh.y
       layer_Layer get_params
       NNPrimer.OurDNN.init NNPrimer.OurDNN.init_loop NNPrimer.OurDNN.forward
       NNPrimer.OurDNN.backward NNPrimer.OurDNN.layers
       NNPrimer.OurLinear.init NNPrimer.OurLinear.forward
       NNPrimer.OurLinear.backward NNPrimer.OurLinear.w NNPrimer.OurLinear.b
       NNPrimer.OurLinear.x NNPrimer.OurTanh.init NNPrimer.OurTanh.forward
       NNPrimer.OurTanh.backward NNPrimer.OurTanh.y
       NNPrimer.layer_Layer NNPrimer.get_our_params
       forward_loop backward_loop backward_chain layer_forward layer_backward
       getattr ws bs fst snd app rev fold_left List.length
       Z.to_nat Pos.to_nat Pos.iter_op Init.Nat.add].

Lemma tanh_1_square_pos : 0 < tanh 1 ^ 2.
Proof. apply pow_lt, tanh_1_pos. Qed.

(** C1, on [NNPrimer.ipynb].  The network [OurDNN(1)] with weight 0.5 and
    bias 0.5, after [forward(1.0)], is given [backward(1.0, 0.1)].  The
    loop of this notebook runs the Linear layer first, on the [grad_out] of
    the call, and leaves weight 0.4 and bias 0.4.  The backward pass of the
    specification runs the Tanh layer first and the Linear layer on what it
    returned, which leaves weight and bias [0.4 + 0.1 * tanh(1)^2], a
    larger number. *)
Theorem primer_backward_runs_first_layer_first :
  let net :=
    fst (NNPrimer.OurDNN.forward
           (NNPrimer.OurDNN.init 1 (fun _ => 0.5)) 1.0) in
  NNPrimer.OurDNN.layers net
  = [NNPrimer.Linear (NNPrimer.OurLinear.mk 0.5 0.5 (Some 1.0));
     NNPrimer.Tanh (NNPrimer.OurTanh.mk (Some (tanh (1.0 * 0.5 + 0.5))))]
  /\ NNPrimer.get_our_params (fst (NNPrimer.OurDNN.backward net 1.0 0.1))
     = {| ws := [0.5 - 0.1 * (1.0 * 1.0)]; bs := [0.5 - 0.1 * 1.0] |}
  /\ NNPrimer.get_our_params
       (NNPrimer.OurDNN.mk
          (fst (backward_chain (NNPrimer.OurDNN.layers net) 1.0 0.1)))
     = {| ws := [0.5 - 0.1 * (1.0 * (1 - tanh (1.0 * 0.5 + 0.5) ^ 2) * 1.0)];
          bs := [0.5 - 0.1 * (1.0 * (1 - tanh (1.0 * 0.5 + 0.5) ^ 2))] |}
  /\ 0.5 - 0.1 * (1.0 * 1.0) = 0.4
  /\ 0.5 - 0.1 * (1.0 * (1 - tanh (1.0 * 0.5 + 0.5) ^ 2) * 1.0)
     = 0.4 + 0.1 * tanh 1 ^ 2
  /\ 0.4 < 0.4 + 0.1 * tanh 1 ^ 2.
Proof.
  intros net; subst net.
  split; [reflexivity|].
  split; [reflexivity|].
  split; [reflexivity|].
  split; [lra|].
  split.
  - replace (1.0 * 0.5 + 0.5) with 1 by lra.
    generalize (tanh 1 ^ 2); intros q; lra.
  - pose proof tanh_1_square_pos. lra.
Qed.

(** C8.  The network [OurDNN(1)], one Linear layer and one Tanh layer, with
    weight 0.5 and bias 0.5 in both notebooks, after [forward(1.0)]:
    [backward(1.0, 0.1)] of the annotated notebook, which runs the layers
    from the last to the first, and [backward(1.0, 0.1)] of
    [NNPrimer.ipynb], which runs them from the first to the last, do not
    return the same gradient with the same updated parameters (the updated
    weights differ). *)
Theorem traversal_orders_differ :
  exists (n : Z) (draw : nat -> R) (x grad_out lr : R),
    let net := fst (OurDNN.forward (OurDNN.init n draw) x) in
    let net' :=
      fst (NNPrimer.OurDNN.forward (NNPrimer.OurDNN.init n draw) x) in
    (2 <= List.length (OurDNN.layers net))%nat
    /\ get_params net = NNPrimer.get_our_params net'
    /\ (snd (OurDNN.backward net grad_out lr)
        <> snd (NNPrimer.OurDNN.backward net' grad_out lr)
        \/ get_params (fst (OurDNN.backward net grad_out lr))
           <> NNPrimer.get_our_params
                (fst (NNPrimer.OurDNN.backward net' grad_out lr))).
Proof.
  exists 1%Z, (fun _ => 0.5), 1, 1, 0.1.
  run_network.
  split; [apply le_n|].
  split; [reflexivity|].
  right; intros E.
  injection E as Ew _.
  replace (1 * 0.5 + 0.5) with 1 in Ew by lra.
  pose proof tanh_1_square_pos. lra.
Qed.


(** * Further properties of the notebooks *)

(** ** Construction *)

Lemma OurDNN_init_loop_closed (rounds : nat) (draw : nat -> R) (j : nat)
      (acc : list layer) :
  OurDNN.init_loop rounds draw (2 * j) acc
  = acc ++ flat_map (fresh_pair draw) (seq j rounds).
Proof.
  revert j acc; induction rounds as [|rounds IH]; intros j acc; simpl.
  - now rewrite app_nil_r.
  - replace (S (S (j + (j + 0)))) with (2 * S j)%nat by (simpl; auto with arith).
    rewrite IH, <- !app_assoc. reflexivity.
Qed.

Lemma primer_init_loop_closed (rounds : nat) (draw : nat -> R) (j : nat)
      (acc : list NNPrimer.layer) :
  NNPrimer.OurDNN.init_loop rounds draw (2 * j) acc
  = acc ++ flat_map (primer_fresh_pair draw) (seq j rounds).
Proof.
  revert j acc; induction rounds as [|rounds IH]; intros j acc; simpl.
  - now rewrite app_nil_r.
  - replace (S (S (j + (j + 0)))) with (2 * S j)%nat by (simpl; auto with arith).
    rewrite IH, <- !app_assoc. reflexivity.
Qed.

Lemma torch_init_loop_closed (rounds : nat) (draw : nat -> R) (j : nat)
      (acc : list PyDNN.layer) :
  PyDNN.init_loop rounds draw (2 * j) acc
  = acc ++ flat_map (torch_fresh_pair draw) (seq j rounds).
Proof.
  revert j acc; induction rounds as [|rounds IH]; intros j acc; simpl.
  - now rewrite app_nil_r.
  - replace (S (S (j + (j + 0)))) with (2 * S j)%nat by (simpl; auto with arith).
    rewrite IH, <- !app_assoc. reflexivity.
Qed.

Lemma flat_map_pair_length {A B : Type} (f : A -> list B) (l : list A) :
  (forall a, List.length (f a) = 2%nat) ->
  List.length (flat_map f l) = (2 * List.length l)%nat.
Proof.
  intros Hf; induction l as [|a l IH]; simpl.
  - reflexivity.
  - rewrite length_app, Hf, IH. simpl. auto with arith.
Qed.

Lemma OurDNN_init_layers (n : Z) (draw : nat -> R) :
  OurDNN.layers (OurDNN.init n draw)
  = flat_map (fresh_pair draw) (seq 0 (Z.to_nat n)).
Proof. apply (OurDNN_init_loop_closed (Z.to_nat n) draw 0 []). Qed.

Lemma primer_init_layers (n : Z) (draw : nat -> R) :
  NNPrimer.OurDNN.layers (NNPrimer.OurDNN.init n draw)
  = flat_map (primer_fresh_pair draw) (seq 0 (Z.to_nat n)).
Proof. apply (primer_init_loop_closed (Z.to_nat n) draw 0 []). Qed.

Lemma torch_init_layers (n : Z) (draw : nat -> R) :
  PyDNN.layers (PyDNN.init n draw)
  = flat_map (torch_fresh_pair draw) (seq 0 (Z.to_nat n)).
Proof. apply (torch_init_loop_closed (Z.to_nat n) draw 0 []). Qed.

(** X1.  [OurDNN(n)] holds, for each of its [max(n, 0)] rounds in order, a
    new Linear layer with the next two draws as weight and bias and no
    cached input, followed by a new Tanh layer: [2 * max(n, 0)] objects in
    all.  The same holds in [NNPrimer.ipynb]. *)
Theorem OurDNN_init_shape (n : Z) (draw : nat -> R) :
  OurDNN.layers (OurDNN.init n draw)
  = flat_map (fresh_pair draw) (seq 0 (Z.to_nat n))
  /\ List.length (OurDNN.layers (OurDNN.init n draw)) = (2 * Z.to_nat n)%nat
  /\ NNPrimer.OurDNN.layers (NNPrimer.OurDNN.init n draw)
     = flat_map (primer_fresh_pair draw) (seq 0 (Z.to_nat n))
  /\ List.length (NNPrimer.OurDNN.layers (NNPrimer.OurDNN.init n draw))
     = (2 * Z.to_nat n)%nat.
Proof.
  rewrite OurDNN_init_layers, primer_init_layers.
  repeat split;
    rewrite flat_map_pair_length, length_seq; reflexivity.
Qed.

(** ** Reading the parameters *)

Lemma fold_params_pick {A : Type} (f : params -> A -> params)
      (read : A -> option (R * R)) :
  (forall p obj,
      f p obj = match read obj with
                | Some (w, b) => {| ws := ws p ++ [w]; bs := bs p ++ [b] |}
                | None => p
                end) ->
  forall (ls : list A) (acc : params),
    fold_left f ls acc
    = {| ws := ws acc ++ map fst (pick read ls);
         bs := bs acc ++ map snd (pick read ls) |}.
Proof.
  intros Hf ls; induction ls as [|obj rest IH]; intros acc; simpl.
  - rewrite !app_nil_r. now destruct acc.
  - rewrite IH, Hf. unfold pick in *.
    destruct (read obj) as [[w b]|]; simpl.
    + now rewrite <- !app_assoc.
    + reflexivity.
Qed.

Lemma get_params_pick (dnn : OurDNN.t) :
  get_params dnn
  = {| ws := map fst (pick learnable (OurDNN.layers dnn));
       bs := map snd (pick learnable (OurDNN.layers dnn)) |}.
Proof.
  unfold get_params.
  rewrite (fold_params_pick _ learnable); [reflexivity|].
  now intros p [l|a].
Qed.

Lemma get_our_params_pick (dnn : NNPrimer.OurDNN.t) :
  NNPrimer.get_our_params dnn
  = {| ws := map fst (pick primer_learnable (NNPrimer.OurDNN.layers dnn));
       bs := map snd (pick primer_learnable (NNPrimer.OurDNN.layers dnn)) |}.
Proof.
  unfold NNPrimer.get_our_params.
  rewrite (fold_params_pick _ primer_learnable); [reflexivity|].
  now intros p [l|a].
Qed.

Lemma get_params_torch_pick (dnn : PyDNN.t) :
  get_params_torch dnn
  = {| ws := map fst (pick torch_learnable (PyDNN.layers dnn));
       bs := map snd (pick torch_learnable (PyDNN.layers dnn)) |}.
Proof.
  unfold get_params_torch.
  rewrite (fold_params_pick _ torch_learnable); [reflexivity|].
  now intros p [w b|].
Qed.

Lemma get_py_params_pick (dnn : PyDNN.t) :
  NNPrimer.get_py_params dnn
  = {| ws := map fst (pick torch_learnable (PyDNN.layers dnn));
       bs := map snd (pick torch_learnable (PyDNN.layers dnn)) |}.
Proof.
  unfold NNPrimer.get_py_params.
  rewrite (fold_params_pick _ torch_learnable); [reflexivity|].
  now intros p [w b|].
Qed.

Lemma pick_map_eq {A B : Type} (read : A -> option (R * R))
      (read' : B -> option (R * R)) (ls : list A) (ls' : list B) :
  map read ls = map read' ls' -> pick read ls = pick read' ls'.
Proof.
  revert ls'; induction ls as [|a ls IH]; intros [|a' ls'] E;
    simpl in E; try discriminate; [reflexivity|].
  injection E as Ea Er. unfold pick in *; simpl.
  now rewrite Ea, (IH ls' Er).
Qed.

Lemma pick_fresh_pairs (draw : nat -> R) (js : list nat) :
  pick learnable (flat_map (fresh_pair draw) js)
  = map (fun j => (draw (2 * j)%nat, draw (S (2 * j)))) js.
Proof.
  induction js as [|j js IH]; [reflexivity|].
  unfold pick in *. cbn [flat_map fresh_pair app map].
  cbn [learnable OurLinear.init OurLinear.weight OurLinear.bias app].
  now rewrite IH.
Qed.

(** X2.  A network read back right after construction, [get_params(OurDNN(n))],
    lists the weights and the biases in layer order: the [j]-th weight is
    the draw number [2j] and the [j]-th bias the draw number [2j+1], and
    both lists have [max(n, 0)] entries. *)
Theorem get_params_of_new_network (n : Z) (draw : nat -> R) :
  get_params (OurDNN.init n draw)
  = {| ws := map (fun j => draw (2 * j)%nat) (seq 0 (Z.to_nat n));
       bs := map (fun j => draw (S (2 * j))) (seq 0 (Z.to_nat n)) |}.
Proof.
  rewrite get_params_pick, OurDNN_init_layers.
  rewrite pick_fresh_pairs, !map_map. reflexivity.
Qed.

(** X3.  For every network, whatever its state, [get_params] returns as
    many weights as biases, one of each per Linear layer: the [j]-th weight
    and the [j]-th bias belong to the [j]-th Linear layer of the list. *)
Theorem get_params_pairs_up (dnn : OurDNN.t) :
  List.length (ws (get_params dnn)) = List.length (bs (get_params dnn))
  /\ List.length (ws (get_params dnn))
     = List.length (filter is_linear (OurDNN.layers dnn))
  /\ combine (ws (get_params dnn)) (bs (get_params dnn))
     = pick learnable (OurDNN.layers dnn).
Proof.
  rewrite get_params_pick; cbn [ws bs].
  rewrite !length_map.
  split; [reflexivity|split].
  - unfold pick. induction (OurDNN.layers dnn) as [|[l|a] rest IH]; simpl;
      [reflexivity| now rewrite IH | exact IH].
  - induction (pick learnable (OurDNN.layers dnn)) as [|[w b] rest IH]; simpl;
      [reflexivity | now rewrite IH].
Qed.

(** ** A network that has not run forward *)

Lemma OurDNN_eta (dnn : OurDNN.t) : OurDNN.mk (OurDNN.layers dnn) = dnn.
Proof. now destruct dnn. Qed.

Lemma primer_OurDNN_eta (dnn : NNPrimer.OurDNN.t) :
  NNPrimer.OurDNN.mk (NNPrimer.OurDNN.layers dnn) = dnn.
Proof. now destruct dnn. Qed.

Lemma new_network_ends_in_tanh (n : Z) (draw : nat -> R) :
  (1 <= n)%Z ->
  exists front : list layer,
    OurDNN.layers (OurDNN.init n draw) = front ++ [Tanh OurTanh.init].
Proof.
  intros Hn.
  rewrite OurDNN_init_layers.
  destruct (Z.to_nat n) as [|m] eqn:E; [lia|].
  rewrite seq_S, flat_map_app. cbn [flat_map fresh_pair app Nat.add].
  exists (flat_map (fresh_pair draw) (seq 0 m)
            ++ [Linear (OurLinear.init (draw (2 * m)%nat) (draw (S (2 * m))))]).
  now rewrite <- app_assoc.
Qed.

(** X4.  [backward] on a network [OurDNN(n)], [n >= 1], that has not run
    [forward] raises [AttributeError] for the attribute [y] of its last
    layer, the Tanh layer the reversed loop visits first, and changes
    nothing in the network. *)
Theorem backward_on_new_network (n : Z) (draw : nat -> R) (grad_out lr : R) :
  (1 <= n)%Z ->
  OurDNN.backward (OurDNN.init n draw) grad_out lr
  = (OurDNN.init n draw, Raise (AttributeError "OurTanh" "y")).
Proof.
  intros Hn.
  rewrite OurDNN_backward_is_chain.
  destruct (new_network_ends_in_tanh n draw Hn) as [front E].
  rewrite E, backward_chain_last. cbn.
  now rewrite <- E, OurDNN_eta.
Qed.

Lemma backward_on_new_network_witness :
  (1 <= 1)%Z
  /\ OurDNN.backward (OurDNN.init 1 (fun _ => 0.5)) 1 0.1
     = (OurDNN.init 1 (fun _ => 0.5), Raise (AttributeError "OurTanh" "y")).
Proof.
  split.
  - apply Z.le_refl.
  - apply (backward_on_new_network 1 (fun _ => 0.5) 1 0.1), Z.le_refl.
Defined.

(** X5.  In [NNPrimer.ipynb], [backward] on a network [OurDNN(n)],
    [n >= 1], that has not run [forward] raises [AttributeError] for the
    attribute [x] of its first layer, the Linear layer this notebook's loop
    visits first, and changes nothing in the network. *)
Theorem primer_backward_on_new_network (n : Z) (draw : nat -> R)
        (grad_out lr : R) :
  (1 <= n)%Z ->
  NNPrimer.OurDNN.backward (NNPrimer.OurDNN.init n draw) grad_out lr
  = (NNPrimer.OurDNN.init n draw, Raise (AttributeError "OurLinear" "x")).
Proof.
  intros Hn.
  unfold NNPrimer.OurDNN.backward.
  pose proof (primer_init_layers n draw) as E.
  destruct (Z.to_nat n) as [|m] eqn:Em; [lia|].
  destruct (NNPrimer.OurDNN.init n draw) as [ls].
  cbn [NNPrimer.OurDNN.layers] in *. subst ls. reflexivity.
Qed.

Lemma primer_backward_on_new_network_witness :
  (1 <= 1)%Z
  /\ NNPrimer.OurDNN.backward (NNPrimer.OurDNN.init 1 (fun _ => 0.5)) 1 0.1
     = (NNPrimer.OurDNN.init 1 (fun _ => 0.5),
        Raise (AttributeError "OurLinear" "x")).
Proof.
  split.
  - apply Z.le_refl.
  - apply (primer_backward_on_new_network 1 (fun _ => 0.5) 1 0.1), Z.le_refl.
Defined.

(** ** More on the loops *)

Section SplitLoops.

Context {L : Type} `{Layer L}.

Lemma forward_loop_app (front back : list L) (x : R) :
  forward_loop (front ++ back) x
  = (let (front', mid) := forward_loop front x in
     let (back', out) := forward_loop back mid in
     (front' ++ back', out)).
Proof.
  revert x; induction front as [|layer rest IH]; intros x; simpl.
  - now destruct (forward_loop back x).
  - destruct (layer_forward layer x) as [layer' x'].
    rewrite IH.
    destruct (forward_loop rest x') as [rest' mid].
    now destruct (forward_loop back mid).
Qed.

Lemma backward_chain_app (front back : list L) (grad_out lr : R) :
  backward_chain (front ++ back) grad_out lr
  = match backward_chain back grad_out lr with
    | (back', Raise e) => (front ++ back', Raise e)
    | (back', Return g) =>
        let (front', out) := backward_chain front g lr in
        (front' ++ back', out)
    end.
Proof.
  induction front as [|layer rest IH]; simpl.
  - now destruct (backward_chain back grad_out lr) as [back' [g|e]].
  - rewrite IH.
    destruct (backward_chain back grad_out lr) as [back' [g|e]];
      [|reflexivity].
    destruct (backward_chain rest g lr) as [rest' [g'|e]]; [|reflexivity].
    now destruct (layer_backward layer g' lr).
Qed.

Lemma backward_chain_length (ls : list L) (grad_out lr : R) :
  List.length (fst (backward_chain ls grad_out lr)) = List.length ls.
Proof.
  induction ls as [|layer rest IH]; simpl; [reflexivity|].
  destruct (backward_chain rest grad_out lr) as [rest' [g|e]]; simpl in *.
  - destruct (layer_backward layer g lr); simpl. now rewrite IH.
  - now rewrite IH.
Qed.

Lemma backward_loop_length (ls : list L) (grad_out lr : R) :
  List.length (fst (backward_loop ls grad_out lr)) = List.length ls.
Proof.
  revert grad_out; induction ls as [|layer rest IH]; intros grad_out; simpl;
    [reflexivity|].
  destruct (layer_backward layer grad_out lr) as [layer' [g|e]]; simpl.
  - specialize (IH g). destruct (backward_loop rest g lr); simpl in *.
    now rewrite IH.
  - reflexivity.
Qed.

End SplitLoops.

Lemma forward_loop_parameters_only (ls ls' : list layer) (x : R) :
  map learnable ls = map learnable ls' ->
  forward_loop ls x = forward_loop ls' x.
Proof.
  revert ls' x; induction ls as [|obj rest IH]; intros [|obj' rest'] x E;
    simpl in E; try discriminate; [reflexivity|].
  injection E as Eo Er.
  destruct obj as [[w b c]|[c]], obj' as [[w' b' c']|[c']];
    simpl in Eo; try discriminate.
  - injection Eo as -> ->. cbn.
    now rewrite (IH rest' _ Er).
  - cbn. now rewrite (IH rest' _ Er).
Qed.

Lemma forward_ignores_caches_aux (dnn dnn' : OurDNN.t) (x : R) :
  map learnable (OurDNN.layers dnn) = map learnable (OurDNN.layers dnn') ->
  OurDNN.forward dnn x = OurDNN.forward dnn' x.
Proof.
  intros E. unfold OurDNN.forward.
  now rewrite (forward_loop_parameters_only _ _ x E).
Qed.

(** X6.  What [OurDNN.forward(x)] returns and the state it leaves depend
    only on the weights and biases and on [x]: two networks with the same
    parameters at the same positions, whatever their caches hold, behave
    alike. *)
Theorem forward_ignores_old_caches (dnn dnn' : OurDNN.t) (x : R) :
  map learnable (OurDNN.layers dnn) = map learnable (OurDNN.layers dnn') ->
  OurDNN.forward dnn x = OurDNN.forward dnn' x.
Proof.
  apply forward_ignores_caches_aux.
Qed.

Lemma forward_ignores_old_caches_witness :
  let dnn := OurDNN.init 1 (fun _ => 0.5) in
  let dnn' := fst (OurDNN.forward dnn 3) in
  map learnable (OurDNN.layers dnn) = map learnable (OurDNN.layers dnn')
  /\ OurDNN.forward dnn 1 = OurDNN.forward dnn' 1.
Proof.
  split.
  - reflexivity.
  - apply forward_ignores_old_caches. reflexivity.
Defined.


(** ** What backward leaves in the caches *)

Lemma layer_backward_keeps_cache (obj : layer) (grad_out lr : R) :
  cache_of (fst (layer_backward obj grad_out lr)) = cache_of obj
  /\ is_linear (fst (layer_backward obj grad_out lr)) = is_linear obj.
Proof.
  destruct obj as [[w b [c|]]|[[c|]]]; split; reflexivity.
Qed.

Lemma backward_chain_keeps_caches (ls : list layer) (grad_out lr : R) :
  map cache_of (fst (backward_chain ls grad_out lr)) = map cache_of ls
  /\ map is_linear (fst (backward_chain ls grad_out lr)) = map is_linear ls.
Proof.
  induction ls as [|obj rest [IHc IHk]]; cbn [backward_chain];
    [split; reflexivity|].
  destruct (backward_chain rest grad_out lr) as [rest' [g|e]];
    cbn [fst map] in *.
  - destruct (layer_backward_keeps_cache obj g lr) as [Ec Ek].
    destruct (layer_backward obj g lr) as [obj' out]; cbn [fst map] in *.
    now rewrite Ec, Ek, IHc, IHk.
  - now rewrite IHc, IHk.
Qed.

Lemma cached_from_cache_of (ls ls' : list layer) :
  map cache_of ls = map cache_of ls' ->
  forallb cached ls = forallb cached ls'.
Proof.
  revert ls'; induction ls as [|obj rest IH]; intros [|obj' rest'] E;
    simpl in E; try discriminate; [reflexivity|].
  injection E as Eo Er. simpl. rewrite (IH rest' Er). f_equal.
  destruct obj as [[w b c]|[c]], obj' as [[w' b' c']|[c']]; simpl in *;
    now subst.
Qed.

(** X8.  [backward] reads the caches and leaves them in place: it changes
    no cached input or output and no layer changes its class.  After one
    [forward], a second [backward] therefore raises nothing either and
    returns a gradient computed from the same cached values. *)
Theorem backward_keeps_caches (dnn : OurDNN.t) (x g1 lr1 g2 lr2 : R) :
  exists (dnn1 dnn2 : OurDNN.t) (r1 r2 : R),
    OurDNN.backward (fst (OurDNN.forward dnn x)) g1 lr1 = (dnn1, Return r1)
    /\ map cache_of (OurDNN.layers dnn1)
       = map cache_of (OurDNN.layers (fst (OurDNN.forward dnn x)))
    /\ map is_linear (OurDNN.layers dnn1) = map is_linear (OurDNN.layers dnn)
    /\ OurDNN.backward dnn1 g2 lr2 = (dnn2, Return r2).
Proof.
  rewrite OurDNN_backward_is_chain.
  unfold OurDNN.forward.
  pose proof (forward_loop_cached (OurDNN.layers dnn) x) as Hc.
  assert (Hk : map is_linear (fst (forward_loop (OurDNN.layers dnn) x))
               = map is_linear (OurDNN.layers dnn)).
  { generalize (OurDNN.layers dnn) as ls, x as v.
    induction ls as [|[l|a] rest IH]; intros v; cbn; [reflexivity| |];
      match goal with
      | |- context [forward_loop rest ?u] =>
          specialize (IH u); destruct (forward_loop rest u)
      end; cbn in *; now rewrite IH. }
  destruct (forward_loop (OurDNN.layers dnn) x) as [ls out];
    cbn [fst OurDNN.layers] in *.
  destruct (backward_chain_keeps_caches ls g1 lr1) as [Ec Ek].
  destruct (backward_chain_cached ls g1 lr1 Hc) as (ls1 & r1 & E1 & _).
  rewrite E1 in *; cbn [fst] in *.
  assert (Hc1 : forallb cached ls1 = true)
    by now rewrite (cached_from_cache_of ls1 ls Ec).
  destruct (backward_chain_cached ls1 g2 lr2 Hc1) as (ls2 & r2 & E2 & _).
  exists (OurDNN.mk ls1), (OurDNN.mk ls2), r1, r2.
  rewrite OurDNN_backward_is_chain; cbn [OurDNN.layers].
  rewrite E2. repeat split; try assumption. congruence.
Qed.

(** ** Backward computes the derivative of forward *)

Lemma cosh_pos (x : R) : 0 < cosh x.
Proof.
  unfold cosh. pose proof (exp_pos x); pose proof (exp_pos (Ropp x)). lra.
Qed.

Lemma derivable_pt_lim_eq (f : R -> R) (x l l' : R) :
  derivable_pt_lim f x l -> l = l' -> derivable_pt_lim f x l'.
Proof. intros D <-; exact D. Qed.

Lemma derivable_pt_lim_tanh (x : R) :
  derivable_pt_lim tanh x (1 - tanh x ^ 2).
Proof.
  pose proof (cosh_pos x) as Hc.
  apply derivable_pt_lim_eq
    with (l := (cosh x * cosh x - sinh x * sinh x) / Rsqr (cosh x)).
  - apply (derivable_pt_lim_div sinh cosh x (cosh x) (sinh x)).
    + apply derivable_pt_lim_sinh.
    + apply derivable_pt_lim_cosh.
    + lra.
  - unfold tanh, Rsqr. field. lra.
Qed.

Lemma derivable_pt_lim_affine (w b x : R) :
  derivable_pt_lim (fun v => v * w + b) x w.
Proof.
  apply derivable_pt_lim_eq with (l := 1 * w + 0).
  - apply (derivable_pt_lim_plus (fun v => v * w) (fun _ => b) x (1 * w) 0).
    + apply (derivable_pt_lim_scal_right id x 1 w), derivable_pt_lim_id.
    + apply derivable_pt_lim_const.
  - ring.
Qed.

Section ChainRule.

Context {L : Type} `{Layer L}.

(** Each layer's [backward], run on the state its [forward(x)] left,
    multiplies the incoming gradient by the derivative of its [forward] at
    [x]. *)
Hypothesis layer_rule :
  forall (obj : L) (x : R),
  exists d : R,
    derivable_pt_lim (fun v => snd (layer_forward obj v)) x d
    /\ forall grad_out lr : R,
      exists obj' : L,
        layer_backward (fst (layer_forward obj x)) grad_out lr
        = (obj', Return (grad_out * d)).

Lemma forward_loop_cons_out (obj : L) (rest : list L) (v : R) :
  snd (forward_loop (obj :: rest) v)
  = snd (forward_loop rest (snd (layer_forward obj v))).
Proof.
  simpl. destruct (layer_forward obj v) as [obj' x']; simpl.
  now destruct (forward_loop rest x').
Qed.

Lemma forward_loop_cons_state (obj : L) (rest : list L) (v : R) :
  fst (forward_loop (obj :: rest) v)
  = fst (layer_forward obj v)
    :: fst (forward_loop rest (snd (layer_forward obj v))).
Proof.
  simpl. destruct (layer_forward obj v) as [obj' x']; simpl.
  now destruct (forward_loop rest x').
Qed.

Lemma backward_chain_rule (ls : list L) (x : R) :
  exists d : R,
    derivable_pt_lim (fun v => snd (forward_loop ls v)) x d
    /\ forall grad_out lr : R,
      exists ls' : list L,
        backward_chain (fst (forward_loop ls x)) grad_out lr
        = (ls', Return (grad_out * d)).
Proof.
  revert x; induction ls as [|obj rest IH]; intros x.
  - exists 1; split.
    + apply (derivable_pt_lim_id x).
    + intros g lr; exists []. cbn. now rewrite Rmult_1_r.
  - destruct (layer_rule obj x) as (d1 & D1 & B1).
    destruct (IH (snd (layer_forward obj x))) as (d2 & D2 & B2).
    exists (d2 * d1); split.
    + apply derivable_pt_lim_ext
        with (f := comp (fun u => snd (forward_loop rest u))
                        (fun v => snd (layer_forward obj v))).
      * intros v; unfold comp. now rewrite forward_loop_cons_out.
      * now apply derivable_pt_lim_comp.
    + intros g lr.
      rewrite forward_loop_cons_state. cbn [backward_chain].
      destruct (B2 g lr) as [rest' ->].
      destruct (B1 (g * d2) lr) as [obj' ->].
      exists (obj' :: rest'). now rewrite Rmult_assoc.
Qed.

Lemma backward_loop_rule (ls : list L) (x : R) :
  exists d : R,
    derivable_pt_lim (fun v => snd (forward_loop ls v)) x d
    /\ forall grad_out lr : R,
      exists ls' : list L,
        backward_loop (fst (forward_loop ls x)) grad_out lr
        = (ls', Return (grad_out * d)).
Proof.
  revert x; induction ls as [|obj rest IH]; intros x.
  - exists 1; split.
    + apply (derivable_pt_lim_id x).
    + intros g lr; exists []. cbn. now rewrite Rmult_1_r.
  - destruct (layer_rule obj x) as (d1 & D1 & B1).
    destruct (IH (snd (layer_forward obj x))) as (d2 & D2 & B2).
    exists (d2 * d1); split.
    + apply derivable_pt_lim_ext
        with (f := comp (fun u => snd (forward_loop rest u))
                        (fun v => snd (layer_forward obj v))).
      * intros v; unfold comp. now rewrite forward_loop_cons_out.
      * now apply derivable_pt_lim_comp.
    + intros g lr.
      rewrite forward_loop_cons_state. cbn [backward_loop].
      destruct (B1 g lr) as [obj' ->].
      destruct (B2 (g * d1) lr) as [rest' ->].
      exists (obj' :: rest').
      now replace (g * (d2 * d1)) with (g * d1 * d2) by ring.
Qed.

End ChainRule.

Lemma layer_rule_holds (obj : layer) (x : R) :
  exists d : R,
    derivable_pt_lim (fun v => snd (layer_forward obj v)) x d
    /\ forall grad_out lr : R,
      exists obj' : layer,
        layer_backward (fst (layer_forward obj x)) grad_out lr
        = (obj', Return (grad_out * d)).
Proof.
  destruct obj as [[w b c]|[c]].
  - exists w; split.
    + apply (derivable_pt_lim_affine w b x).
    + intros g lr; eexists; reflexivity.
  - exists (1 - tanh x ^ 2); split.
    + apply (derivable_pt_lim_tanh x).
    + intros g lr; eexists; reflexivity.
Qed.

Lemma primer_layer_rule_holds (obj : NNPrimer.layer) (x : R) :
  exists d : R,
    derivable_pt_lim (fun v => snd (layer_forward obj v)) x d
    /\ forall grad_out lr : R,
      exists obj' : NNPrimer.layer,
        layer_backward (fst (layer_forward obj x)) grad_out lr
        = (obj', Return (grad_out * d)).
Proof.
  destruct obj as [[w b c]|[c]].
  - exists w; split.
    + apply (derivable_pt_lim_affine w b x).
    + intros g lr; eexists; reflexivity.
  - exists (1 - tanh x ^ 2); split.
    + apply (derivable_pt_lim_tanh x).
    + intros g lr; eexists; reflexivity.
Qed.

(** X9.  For every network and every input [x], the function
    [v |-> OurDNN.forward(v)] has a derivative [d] at [x], and
    [backward(grad_out, lr)] run after [forward(x)] returns
    [grad_out * d], for every [grad_out] and every learning rate: the
    returned gradient is the chain rule through all layers and does not
    depend on [lr]. *)
Theorem backward_returns_input_gradient (dnn : OurDNN.t) (x : R) :
  exists d : R,
    derivable_pt_lim (fun v => snd (OurDNN.forward dnn v)) x d
    /\ forall grad_out lr : R,
      exists dnn' : OurDNN.t,
        OurDNN.backward (fst (OurDNN.forward dnn x)) grad_out lr
        = (dnn', Return (grad_out * d)).
Proof.
  destruct (backward_chain_rule layer_rule_holds (OurDNN.layers dnn) x)
    as (d & D & B).
  exists d; split.
  - apply derivable_pt_lim_ext
      with (f := fun v => snd (forward_loop (OurDNN.layers dnn) v));
      [|exact D].
    intros v; unfold OurDNN.forward.
    now destruct (forward_loop (OurDNN.layers dnn) v).
  - intros g lr. rewrite OurDNN_backward_is_chain.
    unfold OurDNN.forward.
    specialize (B g lr).
    destruct (forward_loop (OurDNN.layers dnn) x) as [ls out];
      cbn [fst OurDNN.layers] in *.
    destruct B as [ls' ->]. now exists (OurDNN.mk ls').
Qed.

(** X10.  The same holds in [NNPrimer.ipynb]: although its loop runs the
    layers from the first to the last, the gradient that [backward] returns
    after [forward(x)] is [grad_out] times the derivative of the network's
    [forward] at [x]; over the reals the order of the loop shows only in
    the parameter updates. *)
Theorem primer_backward_returns_input_gradient
        (dnn : NNPrimer.OurDNN.t) (x : R) :
  exists d : R,
    derivable_pt_lim (fun v => snd (NNPrimer.OurDNN.forward dnn v)) x d
    /\ forall grad_out lr : R,
      exists dnn' : NNPrimer.OurDNN.t,
        NNPrimer.OurDNN.backward (fst (NNPrimer.OurDNN.forward dnn x))
          grad_out lr
        = (dnn', Return (grad_out * d)).
Proof.
  destruct (backward_loop_rule primer_layer_rule_holds
              (NNPrimer.OurDNN.layers dnn) x) as (d & D & B).
  exists d; split.
  - apply derivable_pt_lim_ext
      with (f := fun v => snd (forward_loop (NNPrimer.OurDNN.layers dnn) v));
      [|exact D].
    intros v; unfold NNPrimer.OurDNN.forward.
    now destruct (forward_loop (NNPrimer.OurDNN.layers dnn) v).
  - intros g lr. unfold NNPrimer.OurDNN.backward, NNPrimer.OurDNN.forward.
    specialize (B g lr).
    destruct (forward_loop (NNPrimer.OurDNN.layers dnn) x) as [ls out];
      cbn [fst NNPrimer.OurDNN.layers] in *.
    destruct B as [ls' ->]. now exists (NNPrimer.OurDNN.mk ls').
Qed.

(** ** The loss and its derivative *)

Lemma derivable_pt_lim_square_error (t p : R) :
  derivable_pt_lim (fun u => (t - u) ^ 2) p (-2 * (t - p)).
Proof.
  assert (D : derivable_pt_lim (fun u => t - u) p (0 - 1)).
  { apply (derivable_pt_lim_minus (fun _ => t) id p 0 1).
    - apply derivable_pt_lim_const.
    - apply derivable_pt_lim_id. }
  apply derivable_pt_lim_ext with (f := fun u => (t - u) * (t - u)).
  - intros u; ring.
  - apply derivable_pt_lim_eq
      with (l := (0 - 1) * (t - p) + (t - p) * (0 - 1)).
    + apply (derivable_pt_lim_mult (fun u => t - u) (fun u => t - u) p
               (0 - 1) (0 - 1) D D).
    + ring.
Qed.

(** X11.  The loss is never negative and is zero exactly when the
    prediction equals the target; the number that [backward()] returns after
    [forward(p, t)] is the derivative of the loss in the prediction, and it
    is zero exactly when the loss is. *)
Theorem mse_loss_is_differentiated (self : OurMSELoss.t) (p t : R) :
  0 <= snd (OurMSELoss.forward self p t)
  /\ (snd (OurMSELoss.forward self p t) = 0 <-> p = t)
  /\ exists grad : R,
       snd (OurMSELoss.backward (fst (OurMSELoss.forward self p t)))
       = Return grad
       /\ derivable_pt_lim (fun u => snd (OurMSELoss.forward self u t)) p grad
       /\ (grad = 0 <-> p = t).
Proof.
  cbn. split; [apply pow2_ge_0|]. split.
  - split; intros E.
    + assert (t - p = 0) by (apply Rsqr_0_uniq; unfold Rsqr; lra). lra.
    + subst p. ring.
  - exists (-2 * (t - p)). split; [reflexivity|]. split.
    + apply derivable_pt_lim_square_error.
    + lra.
Qed.

(** ** One training round is one step of gradient descent *)

Lemma sample_loss_at_linear (front back : list layer) (l : OurLinear.t)
      (x y : R) :
  sample_loss (front ++ Linear l :: back) x y
  = (y - snd (forward_loop back
                (snd (forward_loop front x) * OurLinear.weight l
                 + OurLinear.bias l))) ^ 2.
Proof.
  unfold sample_loss, OurDNN.forward; cbn [OurDNN.layers].
  rewrite forward_loop_app.
  destruct (forward_loop front x) as [front' mid]. cbn.
  now destruct (forward_loop back (mid * OurLinear.weight l + OurLinear.bias l)).
Qed.

Lemma forward_at_linear (front back : list layer) (l : OurLinear.t) (x : R) :
  forward_loop (front ++ Linear l :: back) x
  = (fst (forward_loop front x)
       ++ Linear (OurLinear.mk (OurLinear.weight l) (OurLinear.bias l)
                    (Some (snd (forward_loop front x))))
       :: fst (forward_loop back
                 (snd (forward_loop front x) * OurLinear.weight l
                  + OurLinear.bias l)),
     snd (forward_loop back
            (snd (forward_loop front x) * OurLinear.weight l
             + OurLinear.bias l))).
Proof.
  rewrite forward_loop_app.
  destruct (forward_loop front x) as [front' mid]. cbn.
  now destruct (forward_loop back (mid * OurLinear.weight l + OurLinear.bias l)).
Qed.

(** X12.  One round of the training loop on a sample [(x, y)] is one step
    of gradient descent on the loss of that sample, for every Linear layer
    of the network at once: the loss, as a function of that layer's weight
    alone and as a function of its bias alone, has derivatives [dw] and
    [db] at the current values, and the round leaves
    [weight - lr * dw] and [bias - lr * db] in that layer.  The round
    raises nothing, returns the loss of the sample before the update and
    keeps the number of layers on both sides of the layer. *)
Theorem train_step_is_gradient_descent
        (front : list layer) (l : OurLinear.t) (back : list layer)
        (our_loss : OurMSELoss.t) (lr x y : R) :
  exists (dw db : R) (front' back' : list layer) (our_loss' : OurMSELoss.t)
         (cache : option R),
    derivable_pt_lim
      (fun w => sample_loss (front ++ Linear (with_weight l w) :: back) x y)
      (OurLinear.weight l) dw
    /\ derivable_pt_lim
         (fun b => sample_loss (front ++ Linear (with_bias l b) :: back) x y)
         (OurLinear.bias l) db
    /\ train_step (OurDNN.mk (front ++ Linear l :: back)) our_loss lr x y
       = (OurDNN.mk
            (front'
               ++ Linear (OurLinear.mk (OurLinear.weight l - lr * dw)
                            (OurLinear.bias l - lr * db) cache)
               :: back'),
          our_loss',
          Return (sample_loss (front ++ Linear l :: back) x y))
    /\ List.length front' = List.length front
    /\ List.length back' = List.length back.
Proof.
  set (w := OurLinear.weight l). set (b := OurLinear.bias l).
  set (xk := snd (forward_loop front x)).
  set (out := snd (forward_loop back (xk * w + b))).
  destruct (backward_chain_rule layer_rule_holds back (xk * w + b))
    as (d & D & B).
  set (grad := -2 * (y - out)).
  destruct (B grad lr) as [back' Eback].
  pose proof (forward_loop_cached front x) as Hc.
  destruct (backward_chain_cached (fst (forward_loop front x))
              (grad * d * w) lr Hc) as (front' & gin & Efront & Hlen).
  exists (grad * d * xk), (grad * d), front', back',
    (OurMSELoss.mk (Some (y - out))), (Some xk).
  split; [|split; [|split; [|split]]].
  - apply derivable_pt_lim_ext
      with (f := comp (fun u => (y - u) ^ 2)
                   (comp (fun u => snd (forward_loop back u))
                         (fun v => v * xk + b))).
    + intros v; unfold comp; cbv beta.
      rewrite sample_loss_at_linear. cbn.
      fold xk. now rewrite (Rmult_comm v xk).
    + apply derivable_pt_lim_eq with (l := -2 * (y - out) * (d * xk));
        [|unfold grad; ring].
      apply derivable_pt_lim_comp.
      * apply derivable_pt_lim_comp.
        -- apply derivable_pt_lim_affine.
        -- now rewrite (Rmult_comm w xk).
      * unfold comp. rewrite (Rmult_comm w xk).
        apply derivable_pt_lim_square_error.
  - apply derivable_pt_lim_ext
      with (f := comp (fun u => (y - u) ^ 2)
                   (comp (fun u => snd (forward_loop back u))
                         (fun v => v * 1 + xk * w))).
    + intros v; unfold comp; cbv beta.
      rewrite sample_loss_at_linear. cbn.
      fold xk w. now replace (v * 1 + xk * w) with (xk * w + v) by ring.
    + apply derivable_pt_lim_eq with (l := -2 * (y - out) * (d * 1));
        [|unfold grad; ring].
      apply derivable_pt_lim_comp.
      * apply derivable_pt_lim_comp.
        -- apply derivable_pt_lim_affine.
        -- now replace (b * 1 + xk * w) with (xk * w + b) by ring.
      * unfold comp. replace (b * 1 + xk * w) with (xk * w + b) by ring.
        apply derivable_pt_lim_square_error.
  - rewrite sample_loss_at_linear. fold xk w b out.
    unfold train_step, OurDNN.forward; cbn [OurDNN.layers].
    rewrite forward_at_linear. fold w b xk out.
    cbn [OurMSELoss.forward OurMSELoss.backward OurMSELoss.z getattr].
    rewrite OurDNN_backward_is_chain; cbn [OurDNN.layers].
    rewrite backward_chain_app. cbn [backward_chain].
    fold grad. rewrite Eback.
    cbn [layer_backward layer_Layer OurLinear.backward getattr OurLinear.x
         OurLinear.weight OurLinear.bias].
    rewrite Efront. reflexivity.
  - rewrite Hlen. apply forward_loop_length.
  - apply (f_equal (fun r => List.length (fst r))) in Eback.
    rewrite backward_chain_length, forward_loop_length in Eback.
    now symmetry.
Qed.

(** ** When backward changes no parameter *)

Lemma layer_backward_idle (obj : layer) (grad_out lr : R) :
  lr = 0 \/ grad_out = 0 ->
  learnable (fst (layer_backward obj grad_out lr)) = learnable obj
  /\ (grad_out = 0 ->
      forall r, snd (layer_backward obj grad_out lr) = Return r -> r = 0).
Proof.
  intros Hz.
  destruct obj as [[w b [c|]]|[[c|]]]; cbn; split;
    try reflexivity; try (intros; discriminate).
  - do 2 f_equal; destruct Hz; subst; ring.
  - intros -> r E. injection E as <-. ring.
  - intros -> r E. injection E as <-. ring.
Qed.

Lemma backward_chain_idle (ls : list layer) (grad_out lr : R) :
  lr = 0 \/ grad_out = 0 ->
  map learnable (fst (backward_chain ls grad_out lr)) = map learnable ls
  /\ (grad_out = 0 ->
      forall r, snd (backward_chain ls grad_out lr) = Return r -> r = 0).
Proof.
  intros Hz.
  induction ls as [|obj rest [IHp IHr]]; cbn [backward_chain].
  - split; [reflexivity|]. intros -> r E. now injection E.
  - destruct (backward_chain rest grad_out lr) as [rest' [g|e]];
      cbn [fst snd map] in *.
    + assert (Hg : lr = 0 \/ g = 0).
      { destruct Hz as [Hlr|Hg0]; [now left|right].
        now apply IHr. }
      destruct (layer_backward_idle obj g lr Hg) as [Ep Er].
      destruct (layer_backward obj g lr) as [obj' out]; cbn [fst snd map] in *.
      split; [now rewrite Ep, IHp|].
      intros Hg0 r E. apply Er; [|exact E].
      now apply IHr.
    + split; [now rewrite IHp|]. intros; discriminate.
Qed.

Lemma get_params_from_learnable (dnn dnn' : OurDNN.t) :
  map learnable (OurDNN.layers dnn) = map learnable (OurDNN.layers dnn') ->
  get_params dnn = get_params dnn'.
Proof.
  intros E. rewrite !get_params_pick.
  now rewrite (pick_map_eq learnable learnable _ _ E).
Qed.

(** X13.  With learning rate 0, or with incoming gradient 0, [backward]
    changes no weight and no bias, in whatever state the network is; with
    incoming gradient 0 the gradient it returns, if it returns, is 0. *)
Theorem backward_without_update (dnn : OurDNN.t) (grad_out lr : R) :
  lr = 0 \/ grad_out = 0 ->
  map learnable (OurDNN.layers (fst (OurDNN.backward dnn grad_out lr)))
  = map learnable (OurDNN.layers dnn)
  /\ get_params (fst (OurDNN.backward dnn grad_out lr)) = get_params dnn
  /\ (grad_out = 0 ->
      forall r, snd (OurDNN.backward dnn grad_out lr) = Return r -> r = 0).
Proof.
  intros Hz.
  rewrite OurDNN_backward_is_chain.
  destruct (backward_chain_idle (OurDNN.layers dnn) grad_out lr Hz) as [Ep Er].
  destruct (backward_chain (OurDNN.layers dnn) grad_out lr) as [ls out];
    cbn [fst snd OurDNN.layers] in *.
  split; [exact Ep|split; [|exact Er]].
  now apply get_params_from_learnable.
Qed.

Lemma backward_without_update_witness :
  let dnn := fst (OurDNN.forward (OurDNN.init 1 (fun _ => 0.5)) 1) in
  (0 = 0 \/ 2 = 0)
  /\ get_params (fst (OurDNN.backward dnn 2 0)) = get_params dnn.
Proof.
  split.
  - left; reflexivity.
  - apply (backward_without_update
             (fst (OurDNN.forward (OurDNN.init 1 (fun _ => 0.5)) 1)) 2 0).
    left; reflexivity.
Defined.

(** ** The training loop *)

Lemma train_step_runs (dnn : OurDNN.t) (our_loss : OurMSELoss.t) (lr x y : R) :
  exists (dnn' : OurDNN.t) (gin : R),
    OurDNN.backward (fst (OurDNN.forward dnn x))
      (-2 * (y - snd (OurDNN.forward dnn x))) lr
    = (dnn', Return gin)
    /\ train_step dnn our_loss lr x y
       = (dnn', OurMSELoss.mk (Some (y - snd (OurDNN.forward dnn x))),
          Return ((y - snd (OurDNN.forward dnn x)) ^ 2)).
Proof.
  destruct (OurDNN_backward_after_forward dnn x
              (-2 * (y - snd (OurDNN.forward dnn x))) lr)
    as (dnn' & gin & E & _).
  exists dnn', gin; split; [exact E|].
  unfold train_step.
  destruct (OurDNN.forward dnn x) as [dnn1 out]; cbn [fst snd] in *.
  cbn [OurMSELoss.forward OurMSELoss.backward OurMSELoss.z getattr].
  now rewrite E.
Qed.

Lemma forward_keeps_classes (ls : list layer) (x : R) :
  map is_linear (fst (forward_loop ls x)) = map is_linear ls.
Proof.
  revert x; induction ls as [|[l|a] rest IH]; intros x; cbn; [reflexivity| |];
    match goal with
    | |- context [forward_loop rest ?u] =>
        specialize (IH u); destruct (forward_loop rest u)
    end; cbn in *; now rewrite IH.
Qed.

Lemma train_step_keeps_classes (dnn : OurDNN.t) (our_loss : OurMSELoss.t)
      (lr x y : R) :
  map is_linear (OurDNN.layers (fst (fst (train_step dnn our_loss lr x y))))
  = map is_linear (OurDNN.layers dnn).
Proof.
  destruct (train_step_runs dnn our_loss lr x y) as (dnn' & gin & E & ->).
  cbn [fst]. rewrite OurDNN_backward_is_chain in E.
  unfold OurDNN.forward in E.
  pose proof (forward_keeps_classes (OurDNN.layers dnn) x) as Hf.
  destruct (forward_loop (OurDNN.layers dnn) x) as [ls out];
    cbn [fst snd OurDNN.layers] in *.
  destruct (backward_chain_keeps_caches ls (-2 * (y - out)) lr) as [_ Hk].
  destruct (backward_chain ls (-2 * (y - out)) lr) as [ls' r].
  injection E as <- _. cbn [fst OurDNN.layers] in *. congruence.
Qed.

Lemma next_batch_printed (k : nat) (e : positive) :
  if Nat.eqb (Nat.modulo (S k) (Pos.to_nat e)) 0
  then (S k / Pos.to_nat e = S (k / Pos.to_nat e)
        /\ S k = S (k / Pos.to_nat e) * Pos.to_nat e)%nat
  else (S k / Pos.to_nat e = k / Pos.to_nat e)%nat.
Proof.
  pose proof (Pos2Nat.is_pos e) as He.
  set (n := Pos.to_nat e) in *.
  pose proof (Nat.div_mod_eq (S k) n) as E1.
  pose proof (Nat.mod_upper_bound (S k) n ltac:(lia)) as B1.
  pose proof (Nat.div_mod_eq k n) as E0.
  pose proof (Nat.mod_upper_bound k n ltac:(lia)) as B0.
  destruct (Nat.eqb_spec (S k mod n) 0) as [Z|NZ].
  - assert (S k / n = S (k / n))%nat by nia. split; nia.
  - nia.
Qed.

Lemma train_loop_runs (dataloader : list (R * R)) (lr : R) (e : positive)
      (st : progress) :
  exists st' : progress,
    train_loop dataloader lr e st = (st', Return tt)
    /\ batch_idx st' = (batch_idx st + List.length dataloader)%nat
    /\ map is_linear (OurDNN.layers (dnn_now st'))
       = map is_linear (OurDNN.layers (dnn_now st))
    /\ (our_params st = get_params (dnn_now st) ->
        our_params st' = get_params (dnn_now st'))
    /\ (shown_batches (printed st)
        = map (fun j => (j * Pos.to_nat e)%nat)
            (seq 1 (batch_idx st / Pos.to_nat e)) ->
        shown_batches (printed st')
        = map (fun j => (j * Pos.to_nat e)%nat)
            (seq 1 (batch_idx st' / Pos.to_nat e))).
Proof.
  revert st; induction dataloader as [|[x y] rest IH]; intros st.
  - exists st; cbn. rewrite Nat.add_0_r. repeat split; auto.
  - cbn [train_loop].
    pose proof (train_step_keeps_classes (dnn_now st) (loss_now st) lr x y)
      as Hk.
    destruct (train_step_runs (dnn_now st) (loss_now st) lr x y)
      as (dnn' & gin & _ & E).
    rewrite E in *; cbn [fst] in Hk.
    match goal with
    | |- context [train_loop rest lr e ?s] =>
        destruct (IH s) as (st' & -> & Hb & Hc & Hp & Hs)
    end.
    cbn [batch_idx dnn_now our_params printed] in *.
    exists st'. split; [reflexivity|].
    split; [cbn [List.length]; lia|].
    split; [congruence|].
    split; [intros _; now apply Hp|].
    intros Hshown. apply Hs.
    pose proof (next_batch_printed (batch_idx st) e) as Hn.
    destruct (Nat.eqb (S (batch_idx st) mod Pos.to_nat e) 0).
    + destruct Hn as [Hq Hm].
      unfold shown_batches in *. rewrite flat_map_app, Hshown, Hq.
      rewrite seq_S, map_app. cbn [flat_map map app Nat.add].
      now rewrite <- Hm.
    + now rewrite Hn.
Qed.

(** X14.  The training loop raises nothing, for every network, data and
    learning rate: it visits every sample, ends with [batch_idx] equal to
    the number of samples and [our_params] equal to the parameters of the
    network, keeps the class of every layer, and prints one [after batch]
    line at each multiple of [epoch_size], in increasing order, and at no
    other batch. *)
Theorem train_runs_to_the_end (dnn : OurDNN.t) (dataloader : list (R * R))
        (lr : R) (epoch_size : positive) :
  exists st : progress,
    train dnn dataloader lr epoch_size = (st, Return tt)
    /\ batch_idx st = List.length dataloader
    /\ our_params st = get_params (dnn_now st)
    /\ map is_linear (OurDNN.layers (dnn_now st))
       = map is_linear (OurDNN.layers dnn)
    /\ shown_batches (printed st)
       = map (fun j => (j * Pos.to_nat epoch_size)%nat)
           (seq 1 (List.length dataloader / Pos.to_nat epoch_size)).
Proof.
  unfold train.
  match goal with
  | |- context [train_loop dataloader lr epoch_size ?s] =>
      destruct (train_loop_runs dataloader lr epoch_size s)
        as (st & E & Hb & Hc & Hp & Hs)
  end.
  cbn [batch_idx dnn_now our_params printed Nat.add] in *.
  exists st. split; [exact E|].
  split; [exact Hb|].
  split; [now apply Hp|].
  split; [exact Hc|].
  rewrite <- Hb. apply Hs.
  now rewrite Nat.Div0.div_0_l.
Qed.


(** ** Training at a network that already fits the data *)

Lemma train_loop_fixed_point (dnn : OurDNN.t) (dataloader : list (R * R))
      (lr : R) (e : positive) (st : progress) :
  Forall (fun s => snd (OurDNN.forward dnn (fst s)) = snd s) dataloader ->
  map learnable (OurDNN.layers (dnn_now st))
  = map learnable (OurDNN.layers dnn) ->
  Forall (fun loss => loss = 0) (shown_losses (printed st)) ->
  exists st' : progress,
    train_loop dataloader lr e st = (st', Return tt)
    /\ map learnable (OurDNN.layers (dnn_now st'))
       = map learnable (OurDNN.layers dnn)
    /\ Forall (fun loss => loss = 0) (shown_losses (printed st')).
Proof.
  intros Hfit; revert st.
  induction Hfit as [|[x y] rest Hxy _ IH]; intros st Hp Hl.
  - exists st; cbn; auto.
  - cbn [fst snd] in Hxy. cbn [train_loop].
    destruct (train_step_runs (dnn_now st) (loss_now st) lr x y)
      as (dnn' & gin & Eb & E).
    rewrite (forward_ignores_caches_aux (dnn_now st) dnn x Hp) in *.
    rewrite Hxy in *. rewrite E.
    assert (Hidle : map learnable (OurDNN.layers dnn')
                    = map learnable (OurDNN.layers dnn)).
    { assert (Hz : lr = 0 \/ -2 * (y - y) = 0) by (right; ring).
      pose proof (backward_chain_idle
                    (OurDNN.layers (fst (OurDNN.forward dnn x)))
                    (-2 * (y - y)) lr Hz) as [Hb _].
      rewrite OurDNN_backward_is_chain in Eb.
      destruct (backward_chain (OurDNN.layers (fst (OurDNN.forward dnn x)))
                  (-2 * (y - y)) lr) as [ls r].
      injection Eb as <- _. cbn [fst OurDNN.layers] in *.
      rewrite Hb. unfold OurDNN.forward.
      pose proof (forward_loop_learnable (OurDNN.layers dnn) x) as Hf.
      now destruct (forward_loop (OurDNN.layers dnn) x). }
    match goal with
    | |- context [train_loop rest lr e ?s] =>
        destruct (IH s) as (st' & -> & Hp' & Hl')
    end.
    + exact Hidle.
    + cbn [printed].
      destruct (Nat.eqb (S (batch_idx st) mod Pos.to_nat e) 0); [|exact Hl].
      unfold shown_losses in *. rewrite flat_map_app.
      apply Forall_app; split; [exact Hl|].
      cbn. constructor; [ring|constructor].
    + exists st'; auto.
Qed.

(** X15.  A network that already returns the target of every sample of the
    data is left alone by training: the loop raises nothing, every loss it
    prints is 0, and the weights and biases at its end are those at its
    start, whatever the learning rate. *)
Theorem train_at_exact_fit (dnn : OurDNN.t) (dataloader : list (R * R))
        (lr : R) (epoch_size : positive) :
  Forall (fun s => snd (OurDNN.forward dnn (fst s)) = snd s) dataloader ->
  exists st : progress,
    train dnn dataloader lr epoch_size = (st, Return tt)
    /\ get_params (dnn_now st) = get_params dnn
    /\ Forall (fun loss => loss = 0) (shown_losses (printed st)).
Proof.
  intros Hfit. unfold train.
  match goal with
  | |- context [train_loop dataloader lr epoch_size ?s] =>
      destruct (train_loop_fixed_point dnn dataloader lr epoch_size s Hfit)
        as (st & E & Hp & Hl)
  end.
  - reflexivity.
  - cbn. constructor.
  - exists st. split; [exact E|]. split; [|exact Hl].
    now apply get_params_from_learnable.
Qed.

Lemma train_at_exact_fit_witness :
  let dnn :=
    OurDNN.mk [Linear (OurLinear.mk 0.6 (-0.9) None); Tanh OurTanh.init] in
  let dataloader :=
    [(1, tanh (1 * 0.6 + -0.9)); (2, tanh (2 * 0.6 + -0.9))] in
  Forall (fun s => snd (OurDNN.forward dnn (fst s)) = snd s) dataloader
  /\ get_params dnn = {| ws := [0.6]; bs := [-0.9] |}
  /\ exists st : progress,
       train dnn dataloader 0.01 1 = (st, Return tt)
       /\ get_params (dnn_now st) = get_params dnn
       /\ Forall (fun loss => loss = 0) (shown_losses (printed st)).
Proof.
  intros dnn dataloader.
  assert (H : Forall (fun s => snd (OurDNN.forward dnn (fst s)) = snd s)
                dataloader)
    by (repeat constructor).
  split; [exact H|]. split; [reflexivity|].
  exact (train_at_exact_fit dnn dataloader 0.01 1 H).
Defined.

(** X16.  The function the notebook learns, [tanh(0.6 x - 0.9)], is the
    network with one Linear layer of weight 0.6 and bias -0.9 followed by a
    Tanh layer.  Training that network on samples [(x, f(x))] of the
    function, for any inputs, learning rate and caches, prints only zero
    losses and ends with weight 0.6 and bias -0.9. *)
Theorem target_function_is_a_fixed_point
        (xs : list R) (lr : R) (epoch_size : positive)
        (cache_x cache_y : option R) :
  let dnn :=
    OurDNN.mk [Linear (OurLinear.mk 0.6 (-0.9) cache_x);
               Tanh (OurTanh.mk cache_y)] in
  (forall x : R, snd (OurDNN.forward dnn x) = some_function_we_want_to_learn x)
  /\ exists st : progress,
       train dnn (map (fun x => (x, some_function_we_want_to_learn x)) xs)
         lr epoch_size
       = (st, Return tt)
       /\ get_params (dnn_now st) = {| ws := [0.6]; bs := [-0.9] |}
       /\ Forall (fun loss => loss = 0) (shown_losses (printed st)).
Proof.
  intros dnn.
  assert (Hf : forall x : R,
             snd (OurDNN.forward dnn x) = some_function_we_want_to_learn x).
  { intros x; cbn. unfold some_function_we_want_to_learn.
    f_equal. lra. }
  split; [exact Hf|].
  unfold train.
  match goal with
  | |- context [train_loop ?d lr epoch_size ?s] =>
      destruct (train_loop_fixed_point dnn d lr epoch_size s)
        as (st & E & Hp & Hl)
  end.
  - apply Forall_forall. intros [x y] Hin.
    apply in_map_iff in Hin as (x0 & E & _). injection E as <- <-.
    apply Hf.
  - reflexivity.
  - cbn. constructor.
  - exists st. split; [exact E|]. split; [|exact Hl].
    now rewrite (get_params_from_learnable (dnn_now st) dnn Hp).
Qed.


(** ** Copying the parameters of the PyTorch network *)

Lemma nth_error_at_length {A : Type} (pre post : list A) (a : A) :
  nth_error (pre ++ a :: post) (List.length pre) = Some a.
Proof. induction pre as [|p pre IH]; [reflexivity|exact IH]. Qed.

Lemma nth_error_past_end {A : Type} (l : list A) (i : nat) :
  (List.length l <= i)%nat -> nth_error l i = None.
Proof. apply nth_error_None. Qed.

Lemma update_nth_at_length {A : Type} (pre post : list A) (a v : A) :
  update_nth (List.length pre) v (pre ++ a :: post) = pre ++ v :: post.
Proof.
  induction pre as [|p pre IH]; [reflexivity|].
  cbn. now rewrite IH.
Qed.

Lemma snoc_length {A : Type} (pre : list A) (a : A) :
  S (List.length pre) = List.length (pre ++ [a]).
Proof. rewrite length_app. cbn. lia. Qed.

Lemma copy_params_loop_exhausted (post pre : list PyDNN.layer)
      (ours : list layer) :
  (List.length ours <= List.length pre)%nat ->
  copy_params_loop (List.length pre) (List.length post) (pre ++ post) ours
  = (ours, copy_ends post []).
Proof.
  revert pre; induction post as [|p post IH]; intros pre Hlen;
    [reflexivity|].
  cbn [List.length copy_params_loop].
  rewrite nth_error_at_length.
  destruct p as [w b|].
  - now rewrite (nth_error_past_end ours _ Hlen).
  - rewrite (snoc_length pre PyDNN.Tanh).
    replace (pre ++ PyDNN.Tanh :: post) with ((pre ++ [PyDNN.Tanh]) ++ post)
      by now rewrite <- app_assoc.
    apply IH. rewrite <- snoc_length. lia.
Qed.

Lemma copy_params_loop_overlay (post pre : list PyDNN.layer)
      (done todo : list layer) :
  List.length pre = List.length done ->
  copy_params_loop (List.length pre) (List.length post) (pre ++ post)
    (done ++ todo)
  = (done ++ overlay post todo, copy_ends post todo).
Proof.
  revert pre done todo;
    induction post as [|p post IH]; intros pre done todo Hlen.
  - now destruct todo.
  - destruct todo as [|obj todo].
    + rewrite app_nil_r.
      rewrite copy_params_loop_exhausted by lia.
      cbn [overlay]. now rewrite app_nil_r.
    + cbn [List.length copy_params_loop overlay copy_ends].
      rewrite nth_error_at_length.
      replace (pre ++ p :: post) with ((pre ++ [p]) ++ post)
        by now rewrite <- app_assoc.
      destruct p as [w b|].
      * rewrite (snoc_length pre (PyDNN.Linear w b)), Hlen.
        rewrite nth_error_at_length, update_nth_at_length.
        rewrite nth_error_at_length, update_nth_at_length.
        replace (done ++ setattr_bias (setattr_weight obj w) b :: todo)
          with ((done ++ [setattr_bias (setattr_weight obj w) b]) ++ todo)
          by now rewrite <- app_assoc.
        rewrite IH by (rewrite !length_app; cbn; lia).
        now rewrite <- app_assoc.
      * rewrite (snoc_length pre PyDNN.Tanh).
        replace (done ++ obj :: todo) with ((done ++ [obj]) ++ todo)
          by now rewrite <- app_assoc.
        rewrite IH by (rewrite !length_app; cbn; lia).
        now rewrite <- app_assoc.
Qed.

Lemma copy_params_is_overlay (py_dnn : PyDNN.t) (our_dnn : OurDNN.t) :
  copy_params py_dnn our_dnn
  = (OurDNN.mk (overlay (PyDNN.layers py_dnn) (OurDNN.layers our_dnn)),
     copy_ends (PyDNN.layers py_dnn) (OurDNN.layers our_dnn)).
Proof.
  unfold copy_params.
  pose proof (copy_params_loop_overlay (PyDNN.layers py_dnn) [] []
                (OurDNN.layers our_dnn) eq_refl) as E.
  cbn [List.length app] in E. now rewrite E.
Qed.

Lemma overlay_same_classes (py : list PyDNN.layer) (ours : list layer) :
  map torch_is_linear py = map is_linear ours ->
  copy_ends py ours = Completed
  /\ map learnable (overlay py ours) = map torch_learnable py
  /\ map cache_of (overlay py ours) = map cache_of ours.
Proof.
  revert ours; induction py as [|p py IH]; intros [|obj ours] E;
    simpl in E; try discriminate; [repeat split|].
  injection E as Eo Er.
  destruct (IH ours Er) as (Hc & Hp & Hk).
  destruct p as [w b|], obj as [l|a]; simpl in Eo; try discriminate;
    cbn; now rewrite Hp, Hk.
Qed.

(** X17.  When the two networks have the same classes at the same
    positions, [copy_params(py_dnn, our_dnn)] runs to its end and aligns
    them: [get_params] then reads from [our_dnn] exactly the weights and
    biases it reads from [py_dnn], and no cache of [our_dnn] has changed. *)
Theorem copy_params_aligns (py_dnn : PyDNN.t) (our_dnn : OurDNN.t) :
  map torch_is_linear (PyDNN.layers py_dnn)
  = map is_linear (OurDNN.layers our_dnn) ->
  snd (copy_params py_dnn our_dnn) = Completed
  /\ get_params (fst (copy_params py_dnn our_dnn)) = get_params_torch py_dnn
  /\ map cache_of (OurDNN.layers (fst (copy_params py_dnn our_dnn)))
     = map cache_of (OurDNN.layers our_dnn).
Proof.
  intros E. rewrite copy_params_is_overlay; cbn [fst snd OurDNN.layers].
  destruct (overlay_same_classes _ _ E) as (Hc & Hp & Hk).
  split; [exact Hc|]. split; [|exact Hk].
  rewrite get_params_pick, get_params_torch_pick; cbn [OurDNN.layers].
  now rewrite (pick_map_eq learnable torch_learnable _ _ Hp).
Qed.

Lemma copy_params_aligns_witness :
  let py_dnn := PyDNN.init 1 (fun _ => 0.25) in
  let our_dnn := fst (OurDNN.forward (OurDNN.init 1 (fun _ => 0.5)) 1) in
  map torch_is_linear (PyDNN.layers py_dnn)
  = map is_linear (OurDNN.layers our_dnn)
  /\ get_params (fst (copy_params py_dnn our_dnn)) = get_params_torch py_dnn.
Proof.
  split.
  - reflexivity.
  - apply (copy_params_aligns
             (PyDNN.init 1 (fun _ => 0.25))
             (fst (OurDNN.forward (OurDNN.init 1 (fun _ => 0.5)) 1))).
    reflexivity.
Defined.

Lemma overlay_nil (py : list PyDNN.layer) : overlay py [] = [].
Proof. now destruct py. Qed.

Lemma overlay_fresh_pairs (drawP draw : nat -> R) (m n j : nat) :
  (m <= n)%nat ->
  overlay (flat_map (torch_fresh_pair drawP) (seq j n))
          (flat_map (fresh_pair draw) (seq j m))
  = flat_map (fresh_pair drawP) (seq j m)
  /\ copy_ends (flat_map (torch_fresh_pair drawP) (seq j n))
               (flat_map (fresh_pair draw) (seq j m))
     = if Nat.ltb m n then IndexError else Completed.
Proof.
  revert n j; induction m as [|m IH]; intros n j Hle.
  - cbn [seq flat_map]. rewrite overlay_nil. split; [reflexivity|].
    now destruct n.
  - destruct n as [|n]; [lia|].
    destruct (IH n (S j) ltac:(lia)) as [Ho Hc].
    cbn [seq flat_map torch_fresh_pair fresh_pair app overlay copy_ends].
    rewrite Ho, Hc. split; reflexivity.
Qed.

(** X18.  [copy_params] from a new [PyDNN(n)] into a new [OurDNN(m)] with
    [0 <= m <= n] leaves [OurDNN(m)] as it would have been built from
    PyTorch's draws.  For [m = n] the loop runs to its end; for [m < n] it
    raises [IndexError] at the first [nn.Linear] that has no partner, after
    all [m] Linear layers have been set. *)
Theorem copy_params_between_new_networks
        (n m : Z) (drawP draw : nat -> R) :
  (0 <= m <= n)%Z ->
  copy_params (PyDNN.init n drawP) (OurDNN.init m draw)
  = (OurDNN.init m drawP, if (m <? n)%Z then IndexError else Completed).
Proof.
  intros Hmn.
  rewrite copy_params_is_overlay, torch_init_layers, OurDNN_init_layers.
  destruct (overlay_fresh_pairs drawP draw (Z.to_nat m) (Z.to_nat n) 0
              ltac:(lia)) as [-> ->].
  rewrite <- OurDNN_init_layers, OurDNN_eta.
  f_equal.
  destruct (Z.ltb_spec m n), (Nat.ltb_spec (Z.to_nat m) (Z.to_nat n));
    try reflexivity; lia.
Qed.

Lemma copy_params_between_new_networks_witness :
  (0 <= 1 <= 2)%Z
  /\ copy_params (PyDNN.init 2 (fun _ => 0.25)) (OurDNN.init 1 (fun _ => 0.5))
     = (OurDNN.init 1 (fun _ => 0.25), IndexError).
Proof.
  split.
  - lia.
  - apply (copy_params_between_new_networks 2 1 (fun _ => 0.25) (fun _ => 0.5)).
    lia.
Defined.

(** ** Copying the parameters in NNPrimer.ipynb *)

Lemma nth_error_map_at_length {A B : Type} (f : A -> B) (pre post : list A)
      (a : A) :
  nth_error (map f (pre ++ a :: post)) (List.length pre) = Some (f a).
Proof. now rewrite nth_error_map, nth_error_at_length. Qed.

Lemma primer_overlay_nil (wbs : list (R * R)) : primer_overlay wbs [] = [].
Proof. now destruct wbs as [|[w b] wbs]. Qed.

Lemma primer_copy_loop_overlay (post pre : list (R * R))
      (done todo : list NNPrimer.layer) :
  List.length pre = List.length done ->
  NNPrimer.copy_params_loop (List.length pre) (List.length post)
    {| ws := map fst (pre ++ post); bs := map snd (pre ++ post) |}
    (done ++ todo)
  = (done ++ primer_overlay post todo,
     if Nat.leb (List.length post) (List.length todo)
     then Completed else IndexError).
Proof.
  revert pre done todo;
    induction post as [|[w b] post IH]; intros pre done todo Hlen.
  - now destruct todo.
  - cbn [List.length NNPrimer.copy_params_loop ws bs].
    rewrite !nth_error_map_at_length. cbn [fst snd].
    destruct todo as [|obj todo].
    + rewrite app_nil_r, (nth_error_past_end done) by lia.
      cbn. now rewrite app_nil_r.
    + rewrite (snoc_length pre (w, b)), Hlen.
      rewrite nth_error_at_length, update_nth_at_length.
      rewrite nth_error_at_length, update_nth_at_length.
      replace (pre ++ (w, b) :: post) with ((pre ++ [(w, b)]) ++ post)
        by now rewrite <- app_assoc.
      replace (done ++ NNPrimer.setattr_b (NNPrimer.setattr_w obj w) b :: todo)
        with ((done ++ [NNPrimer.setattr_b (NNPrimer.setattr_w obj w) b])
                ++ todo)
        by now rewrite <- app_assoc.
      rewrite IH by (rewrite !length_app; cbn; lia).
      cbn [primer_overlay List.length Nat.leb].
      now rewrite <- app_assoc.
Qed.

Lemma primer_copy_params_is_overlay (py_dnn : PyDNN.t)
      (our_dnn : NNPrimer.OurDNN.t) :
  NNPrimer.copy_params py_dnn our_dnn
  = (NNPrimer.OurDNN.mk
       (primer_overlay (pick torch_learnable (PyDNN.layers py_dnn))
          (NNPrimer.OurDNN.layers our_dnn)),
     if Nat.leb (List.length (pick torch_learnable (PyDNN.layers py_dnn)))
                (List.length (NNPrimer.OurDNN.layers our_dnn))
     then Completed else IndexError).
Proof.
  unfold NNPrimer.copy_params.
  rewrite get_py_params_pick; cbn [ws].
  rewrite length_map.
  pose proof (primer_copy_loop_overlay
                (pick torch_learnable (PyDNN.layers py_dnn)) [] []
                (NNPrimer.OurDNN.layers our_dnn) eq_refl) as E.
  cbn [List.length app] in E. now rewrite E.
Qed.

(** X19.  [copy_params] of [NNPrimer.ipynb] writes the parameter pair
    number [k] of [py_dnn] into the object at position [k] of
    [our_dnn.layers], whatever the class of that object, for as many
    positions as there are pairs; the objects after them are untouched, and
    the loop raises [IndexError] exactly when [our_dnn] holds fewer objects
    than [py_dnn] has pairs. *)
Theorem primer_copy_params_by_position (py_dnn : PyDNN.t)
        (our_dnn : NNPrimer.OurDNN.t) :
  NNPrimer.copy_params py_dnn our_dnn
  = (NNPrimer.OurDNN.mk
       (primer_overlay
          (combine (ws (NNPrimer.get_py_params py_dnn))
                   (bs (NNPrimer.get_py_params py_dnn)))
          (NNPrimer.OurDNN.layers our_dnn)),
     if Nat.leb (List.length (ws (NNPrimer.get_py_params py_dnn)))
                (List.length (NNPrimer.OurDNN.layers our_dnn))
     then Completed else IndexError).
Proof.
  rewrite primer_copy_params_is_overlay, get_py_params_pick; cbn [ws bs].
  rewrite length_map. do 3 f_equal.
  induction (pick torch_learnable (PyDNN.layers py_dnn)) as [|[w b] l IH];
    [reflexivity|]. cbn. now rewrite <- IH.
Qed.

Lemma pick_torch_fresh_pairs (draw : nat -> R) (js : list nat) :
  pick torch_learnable (flat_map (torch_fresh_pair draw) js)
  = map (fun j => (draw (2 * j)%nat, draw (S (2 * j)))) js.
Proof.
  induction js as [|j js IH]; [reflexivity|].
  unfold pick in *. cbn [flat_map torch_fresh_pair app map torch_learnable].
  now rewrite IH.
Qed.

Lemma primer_pairs_not_reached (drawP draw : nat -> R) (n j m : nat) :
  (n <= 2 * j)%nat ->
  flat_map (primer_copied_pair drawP draw n) (seq j m)
  = flat_map (primer_fresh_pair draw) (seq j m).
Proof.
  revert j; induction m as [|m IH]; intros j Hn; [reflexivity|].
  cbn [seq flat_map]. rewrite IH by lia.
  unfold primer_copied_pair, primer_fresh_pair.
  destruct (Nat.ltb_spec (2 * j) n); [lia|reflexivity].
Qed.

Lemma primer_overlay_fresh_pairs (drawP draw : nat -> R) (m j k : nat) :
  primer_overlay
    (map (fun i => (drawP (2 * i)%nat, drawP (S (2 * i)))) (seq (2 * j) k))
    (flat_map (primer_fresh_pair draw) (seq j m))
  = flat_map (primer_copied_pair drawP draw (2 * j + k)) (seq j m).
Proof.
  revert j k; induction m as [|m IH]; intros j k.
  - cbn [seq flat_map]. apply primer_overlay_nil.
  - destruct k as [|[|k]].
    + rewrite primer_pairs_not_reached by lia. reflexivity.
    + cbn [seq map flat_map primer_fresh_pair app primer_overlay].
      rewrite primer_pairs_not_reached by lia.
      unfold primer_copied_pair at 1.
      destruct (Nat.ltb_spec (2 * j) (2 * j + 1)); [|lia].
      cbn [app]. replace (2 * (2 * j))%nat with (4 * j)%nat by lia.
      reflexivity.
    + cbn [seq map flat_map primer_fresh_pair app primer_overlay].
      replace (S (S (2 * j))) with (2 * S j)%nat by lia.
      rewrite IH.
      replace (2 * S j + k)%nat with (2 * j + S (S k))%nat by lia.
      unfold primer_copied_pair at 2.
      destruct (Nat.ltb_spec (2 * j) (2 * j + S (S k))); [|lia].
      cbn [app]. replace (2 * (2 * j))%nat with (4 * j)%nat by lia.
      reflexivity.
Qed.

(** X20.  In [NNPrimer.ipynb], [copy_params] from a new [PyDNN(n)] into a
    new [OurDNN(n)] sets the [j]-th Linear layer, which is at position [2j]
    of the list, from the parameter pair number [2j] of [py_dnn] when
    [2j < n], and leaves it with its own draws otherwise; the pairs with an
    odd number are assigned to Tanh objects.  The two networks are aligned,
    [get_our_params(our_dnn) = get_py_params(py_dnn)], for [n <= 1]; for
    [n >= 2] the second weight read back is PyTorch's draw number 4 or the
    network's own draw number 2, where PyTorch's second weight is its draw
    number 2. *)
Theorem primer_copy_params_new_networks (n : Z) (drawP draw : nat -> R) :
  NNPrimer.copy_params (PyDNN.init n drawP) (NNPrimer.OurDNN.init n draw)
  = (NNPrimer.OurDNN.mk
       (flat_map (primer_copied_pair drawP draw (Z.to_nat n))
          (seq 0 (Z.to_nat n))),
     Completed)
  /\ NNPrimer.get_our_params
       (fst (NNPrimer.copy_params (PyDNN.init n drawP)
               (NNPrimer.OurDNN.init n draw)))
     = {| ws := map (fun j => if Nat.ltb (2 * j) (Z.to_nat n)
                              then drawP (4 * j)%nat else draw (2 * j)%nat)
                  (seq 0 (Z.to_nat n));
          bs := map (fun j => if Nat.ltb (2 * j) (Z.to_nat n)
                              then drawP (S (4 * j)) else draw (S (2 * j)))
                  (seq 0 (Z.to_nat n)) |}
  /\ NNPrimer.get_py_params (PyDNN.init n drawP)
     = {| ws := map (fun j => drawP (2 * j)%nat) (seq 0 (Z.to_nat n));
          bs := map (fun j => drawP (S (2 * j))) (seq 0 (Z.to_nat n)) |}.
Proof.
  assert (E : NNPrimer.copy_params (PyDNN.init n drawP)
                (NNPrimer.OurDNN.init n draw)
              = (NNPrimer.OurDNN.mk
                   (flat_map (primer_copied_pair drawP draw (Z.to_nat n))
                      (seq 0 (Z.to_nat n))),
                 Completed)).
  { rewrite primer_copy_params_is_overlay, torch_init_layers,
      primer_init_layers, pick_torch_fresh_pairs.
    rewrite length_map, length_seq.
    rewrite (flat_map_pair_length (primer_fresh_pair draw))
      by reflexivity.
    rewrite length_seq.
    pose proof (primer_overlay_fresh_pairs drawP draw (Z.to_nat n) 0
                  (Z.to_nat n)) as Ho.
    change (2 * 0)%nat with 0%nat in Ho.
    change (0 + Z.to_nat n)%nat with (Z.to_nat n) in Ho. rewrite Ho.
    destruct (Nat.leb_spec (Z.to_nat n) (2 * Z.to_nat n)); [reflexivity|lia]. }
  split; [exact E|]. rewrite E; cbn [fst]. split.
  - rewrite get_our_params_pick; cbn [NNPrimer.OurDNN.layers].
    generalize (seq 0 (Z.to_nat n)) as js.
    induction js as [|j js IH]; [reflexivity|].
    injection IH as IHw IHb.
    unfold pick in *. cbn [flat_map primer_copied_pair app map].
    destruct (Nat.ltb (2 * j) (Z.to_nat n)); cbn; now rewrite IHw, IHb.
  - rewrite get_py_params_pick, torch_init_layers, pick_torch_fresh_pairs.
    now rewrite !map_map.
Qed.

(** ** One training round of NNPrimer.ipynb *)

(** X21.  In [NNPrimer.ipynb], one round of training of the network with
    one Linear and one Tanh layer (the notebook's [num_layers = 1]) raises
    nothing and returns the loss of the sample, but it is not the gradient
    descent step: where [dw] and [db] are the derivatives of the loss in the
    weight and in the bias and [out] is the prediction, the round leaves the
    weight [2 * lr * (y - out) * x * out^2] and the bias
    [2 * lr * (y - out) * out^2] away from [weight - lr * dw] and
    [bias - lr * db], the factor [1 - out^2] of the Tanh layer being left
    out of the update. *)
Theorem primer_train_step_misses_tanh_factor
        (w b lr x y : R) (cache_x cache_y : option R)
        (our_loss : NNPrimer.OurMSELoss.t) :
  exists dw db w' b' : R,
    derivable_pt_lim (fun v => primer_sample_loss v b x y) w dw
    /\ derivable_pt_lim (fun v => primer_sample_loss w v x y) b db
    /\ NNPrimer.train_step
         (NNPrimer.OurDNN.mk
            [NNPrimer.Linear (NNPrimer.OurLinear.mk w b cache_x);
             NNPrimer.Tanh (NNPrimer.OurTanh.mk cache_y)])
         our_loss lr x y
       = (NNPrimer.OurDNN.mk
            [NNPrimer.Linear (NNPrimer.OurLinear.mk w' b' (Some x));
             NNPrimer.Tanh (NNPrimer.OurTanh.mk (Some (tanh (x * w + b))))],
          NNPrimer.OurMSELoss.mk (Some (tanh (x * w + b))) (Some y),
          Return (primer_sample_loss w b x y))
    /\ w' - (w - lr * dw)
       = 2 * lr * (y - tanh (x * w + b)) * x * tanh (x * w + b) ^ 2
    /\ b' - (b - lr * db)
       = 2 * lr * (y - tanh (x * w + b)) * tanh (x * w + b) ^ 2.
Proof.
  set (out := tanh (x * w + b)).
  exists (-2 * (y - out) * ((1 - out ^ 2) * x)),
         (-2 * (y - out) * ((1 - out ^ 2) * 1)),
         (w - lr * (-2 * (y - out) * x)),
         (b - lr * (-2 * (y - out))).
  split; [|split; [|split; [|split]]].
  - apply derivable_pt_lim_ext
      with (f := comp (fun u => (y - u) ^ 2)
                   (comp tanh (fun v => v * x + b))).
    + intros v; unfold comp, primer_sample_loss; cbn.
      now rewrite (Rmult_comm v x).
    + apply derivable_pt_lim_comp.
      * apply derivable_pt_lim_comp.
        -- apply derivable_pt_lim_affine.
        -- rewrite (Rmult_comm w x). apply derivable_pt_lim_tanh.
      * unfold comp. rewrite (Rmult_comm w x).
        apply derivable_pt_lim_square_error.
  - apply derivable_pt_lim_ext
      with (f := comp (fun u => (y - u) ^ 2)
                   (comp tanh (fun v => v * 1 + x * w))).
    + intros v; unfold comp, primer_sample_loss; cbn.
      now replace (v * 1 + x * w) with (x * w + v) by ring.
    + apply derivable_pt_lim_comp.
      * apply derivable_pt_lim_comp.
        -- apply derivable_pt_lim_affine.
        -- replace (b * 1 + x * w) with (x * w + b) by ring.
           apply derivable_pt_lim_tanh.
      * unfold comp. replace (b * 1 + x * w) with (x * w + b) by ring.
        apply derivable_pt_lim_square_error.
  - reflexivity.
  - ring.
  - ring.
Qed.

(** X22.  In [NNPrimer.ipynb] too, one round of training raises nothing,
    for every network, sample and learning rate: it returns the squared
    error of the prediction and keeps the number of layers. *)
Theorem primer_train_step_runs (dnn : NNPrimer.OurDNN.t)
        (our_loss : NNPrimer.OurMSELoss.t) (lr x y : R) :
  exists (dnn' : NNPrimer.OurDNN.t) (our_loss' : NNPrimer.OurMSELoss.t),
    NNPrimer.train_step dnn our_loss lr x y
    = (dnn', our_loss',
       Return ((y - snd (NNPrimer.OurDNN.forward dnn x)) ^ 2))
    /\ List.length (NNPrimer.OurDNN.layers dnn')
       = List.length (NNPrimer.OurDNN.layers dnn).
Proof.
  destruct (backward_loop_rule primer_layer_rule_holds
              (NNPrimer.OurDNN.layers dnn) x) as (d & _ & B).
  unfold NNPrimer.train_step, NNPrimer.OurDNN.forward,
    NNPrimer.OurDNN.backward.
  pose proof (forward_loop_length (NNPrimer.OurDNN.layers dnn) x) as Hl.
  destruct (forward_loop (NNPrimer.OurDNN.layers dnn) x) as [ls out];
    cbn [fst snd NNPrimer.OurDNN.layers] in *.
  cbn [NNPrimer.OurMSELoss.forward NNPrimer.OurMSELoss.backward
       NNPrimer.OurMSELoss.x NNPrimer.OurMSELoss.y getattr].
  destruct (B (-2 * (y - out)) lr) as [ls' E].
  pose proof (backward_loop_length ls (-2 * (y - out)) lr) as Hl'.
  rewrite E in *. cbn [fst] in Hl'.
  eexists; eexists; split; [reflexivity|].
  cbn [NNPrimer.OurDNN.layers]. congruence.
Qed.
